(** * The GSE GenAI repository scraper ([scripts/web_scraper.py])

    A shallow embedding of the three crawl stages, the metadata-field
    parser and the CSV writer, together with the properties the
    specification states about them.

    The script leans on three libraries.  They are modelled as follows.

    - [requests.get] is a function from URLs to responses and
      [BeautifulSoup(text, 'html.parser')] a function from page text to
      a parsed document; both are parameters of the development.
    - A parsed document is a tree of tags and strings.  The CSS selectors
      the script passes to [select] / [select_one] are interpreted over
      that tree; [get_text] collects the strings below a tag.
    - A pandas frame is a list of column labels and a list of rows whose
      cells may be missing.

    Characters are the code points below 256. *)

From Stdlib Require Import Ascii String.
From stdpp Require Import base decidable option list sorting strings pretty gmap.

Local Open Scope string_scope.
Local Set Warnings "-register-all,-clear-no-such-hyp".

(** ** Python strings *)

Module Str.

(** [str.isspace] restricted to code points below 256. *)
Definition isspace (c : ascii) : bool :=
  let n := nat_of_ascii c in
  (Nat.leb 9 n && Nat.leb n 13) || (Nat.leb 28 n && Nat.leb n 32)
  || Nat.eqb n 133 || Nat.eqb n 160.

Definition newline : ascii := ascii_of_nat 10.

Definition is_newline (c : ascii) : bool := Ascii.eqb c newline.

Fixpoint lstrip (p : ascii -> bool) (s : string) : string :=
  match s with
  | EmptyString => EmptyString
  | String c s' => if p c then lstrip p s' else s
  end.

Fixpoint rstrip (p : ascii -> bool) (s : string) : string :=
  match s with
  | EmptyString => EmptyString
  | String c s' =>
      match rstrip p s' with
      | EmptyString => if p c then EmptyString else String c EmptyString
      | r => String c r
      end
  end.

(** [s.strip()] is [strip isspace s]; [s.strip("\n")] is
    [strip is_newline s]. *)
Definition strip (p : ascii -> bool) (s : string) : string :=
  rstrip p (lstrip p s).

(** [EmptyString.join(l)]. *)
Definition join (l : list string) : string :=
  fold_right String.append EmptyString l.

End Str.

(** ** Parsed documents *)

Module Soup.

(** A page element is a [NavigableString] or a [Tag].  bs4 keeps the
    [class] attribute as a list of names; the other attributes are
    plain strings. *)
Inductive node : Type :=
| NavigableString (s : string)
| Tag (name : string) (class_ : list string)
      (attrs : list (string * string)) (contents : list node).

Record head : Type := Head {
  h_name : string;
  h_class : list string;
  h_attrs : list (string * string)
}.

(** A tag as the script holds it: bs4 tags know their parents, and a
    selector evaluated below a tag may be satisfied by ancestors above
    it.  [parents] lists the ancestors, nearest first. *)
Record element : Type := Element {
  parents : list head;
  el_head : head;
  contents : list node
}.

(** The [BeautifulSoup] object is itself a tag, named [[document]]. *)
Definition document (top : list node) : element :=
  Element [] (Head "[document]" [] []) top.

(** [tag[key]]: [None] stands for the [KeyError]. *)
Fixpoint assoc (key : string) (l : list (string * string)) : option string :=
  match l with
  | [] => None
  | (k, v) :: l' => if String.eqb k key then Some v else assoc key l'
  end.

Definition attr (key : string) (e : element) : option string :=
  assoc key (h_attrs (el_head e)).

(** *** Selectors *)

(** One compound selector: an optional type, an optional class and an
    optional attribute test ([[a]] or [[a='v']]). *)
Record compound : Type := Compound {
  c_type : option string;
  c_class : option string;
  c_attr : option (string * option string)
}.

(** A complex selector is a chain of compounds joined by descendant
    combinators, outermost first; [select] takes a comma-separated list
    of them. *)
Definition complex : Type := list compound.

Definition match_compound (c : compound) (h : head) : bool :=
  match c_type c with
  | Some t => String.eqb t (h_name h)
  | None => true
  end
  && match c_class c with
     | Some k => existsb (String.eqb k) (h_class h)
     | None => true
     end
  && match c_attr c with
     | Some (a, None) => bool_decide (is_Some (assoc a (h_attrs h)))
     | Some (a, Some v) => bool_decide (assoc a (h_attrs h) = Some v)
     | None => true
     end.

(** [match_ancestors cs anc]: the compounds [cs] (innermost first) are
    matched by ancestors in [anc], in order, going up. *)
Fixpoint match_ancestors (cs : list compound) (anc : list head) : bool :=
  match cs with
  | [] => true
  | c :: cs' =>
      (fix up (anc : list head) : bool :=
         match anc with
         | [] => false
         | h :: anc' =>
             (match_compound c h && match_ancestors cs' anc') || up anc'
         end) anc
  end.

Definition match_complex (s : complex) (e : element) : bool :=
  match rev s with
  | [] => false
  | c :: cs => match_compound c (el_head e) && match_ancestors cs (parents e)
  end.

(** The tags at and below a node, in document order. *)
Fixpoint tags_of (anc : list head) (n : node) : list element :=
  match n with
  | NavigableString _ => []
  | Tag name cls ats kids =>
      let h := Head name cls ats in
      Element anc h kids
      :: (fix below (ns : list node) : list element :=
            match ns with
            | [] => []
            | k :: ns' => (tags_of (h :: anc) k ++ below ns')%list
            end) kids
  end.

Definition descendants (e : element) : list element :=
  flat_map (tags_of (el_head e :: parents e)) (contents e).

Definition select (sel : list complex) (e : element) : list element :=
  List.filter (fun d => existsb (fun s => match_complex s d) sel)
              (descendants e).

Definition select_one (sel : list complex) (e : element) : option element :=
  List.hd_error (select sel e).

(** *** Text *)

Fixpoint strings_of (n : node) : list string :=
  match n with
  | NavigableString s => [s]
  | Tag _ _ _ kids =>
      (fix below (ns : list node) : list string :=
         match ns with
         | [] => []
         | k :: ns' => (strings_of k ++ below ns')%list
         end) kids
  end.

Definition all_strings (e : element) : list string :=
  flat_map strings_of (contents e).

(** [tag.get_text()] *)
Definition get_text (e : element) : string :=
  Str.join (all_strings e).

(** [tag.get_text(strip = True)]: every string is stripped of
    whitespace, the empty ones are dropped and the rest are joined. *)
Definition get_text_strip (e : element) : string :=
  Str.join (filter (fun s => s ≠ EmptyString)
                   (map (Str.strip Str.isspace) (all_strings e))).

(** *** The selectors of the script *)

Definition ty (t : string) : compound := Compound (Some t) None None.
Definition ty_class (t k : string) : compound := Compound (Some t) (Some k) None.
Definition ty_has (t a : string) : compound := Compound (Some t) None (Some (a, None)).
Definition ty_is (t a v : string) : compound := Compound (Some t) None (Some (a, Some v)).

(** ["ul.pagination li a.page-link"] *)
Definition sel_pagination : list complex :=
  [[ty_class "ul" "pagination"; ty "li"; ty_class "a" "page-link"]].
(** ["ul.list-papers li.col"] *)
Definition sel_cards : list complex :=
  [[ty_class "ul" "list-papers"; ty_class "li" "col"]].
(** ["div.card a[hreflang='en']"] *)
Definition sel_card_title : list complex :=
  [[ty_class "div" "card"; ty_is "a" "hreflang" "en"]].
(** ["div.card a[href]"] *)
Definition sel_card_link : list complex :=
  [[ty_class "div" "card"; ty_has "a" "href"]].
(** ["h1"] *)
Definition sel_h1 : list complex := [[ty "h1"]].
(** ["div.node__content"] *)
Definition sel_node_content : list complex := [[ty_class "div" "node__content"]].
(** ["div.field"] *)
Definition sel_field : list complex := [[ty_class "div" "field"]].
(** ["div.field__label"] *)
Definition sel_label : list complex := [[ty_class "div" "field__label"]].
(** ["div.field__item, p"] *)
Definition sel_item_or_p : list complex := [[ty_class "div" "field__item"]; [ty "p"]].
(** ["div.field__item"] *)
Definition sel_item : list complex := [[ty_class "div" "field__item"]].
(** ["a[href]"] *)
Definition sel_a_href : list complex := [[ty_has "a" "href"]].

End Soup.

(** ** Python effects: exceptions, standard output, files *)

Module Py.

(** The uncaught exceptions the script can end with. *)
Inductive exn : Type :=
| AttributeError            (* a method called on [None] *)
| TypeError                 (* [None[key]] *)
| KeyError (key : string).  (* a missing attribute or column *)

Inductive result (A : Type) : Type :=
| Ok (a : A)
| Raise (e : exn).
Arguments Ok {A} a.
Arguments Raise {A} e.

Definition is_ok {A} (r : result A) : bool :=
  match r with Ok _ => true | Raise _ => false end.

(** A CSV file is kept as its grid of cells, header row first. *)
Definition csv : Type := list (list string).

(** What a run can change: the lines printed so far and the files. *)
Record world : Type := World {
  stdout : list string;
  files : gmap string csv
}.

Definition IO (A : Type) : Type := world -> result A * world.

Definition ret {A} (a : A) : IO A := fun w => (Ok a, w).

Definition raise {A} (e : exn) : IO A := fun w => (Raise e, w).

Definition bind {A B} (m : IO A) (k : A -> IO B) : IO B :=
  fun w =>
    match m w with
    | (Ok a, w') => k a w'
    | (Raise e, w') => (Raise e, w')
    end.

Definition lift {A} (r : result A) : IO A := fun w => (r, w).

Definition print (line : string) : IO unit :=
  fun w => (Ok tt, World (stdout w ++ [line]) (files w)).

Definition write_file (path : string) (data : csv) : IO unit :=
  fun w => (Ok tt, World (stdout w) (<[path := data]> (files w))).

(** [for x in l: s = body x s], stopping at the first exception. *)
Fixpoint for_each {A S} (body : A -> S -> IO S) (l : list A) (s : S) : IO S :=
  match l with
  | [] => ret s
  | x :: l' => bind (body x s) (for_each body l')
  end.

(** [None.method(...)] and [None[key]]. *)
Definition method {A} (o : option A) : IO A :=
  match o with Some a => ret a | None => raise AttributeError end.

Definition subscriptable {A} (o : option A) : IO A :=
  match o with Some a => ret a | None => raise TypeError end.

Definition item (key : string) (o : option string) : IO string :=
  match o with Some v => ret v | None => raise (KeyError key) end.

End Py.

Import Py.

Notation "x <- m ;; k" := (Py.bind m (fun x => k))
  (at level 100, m at next level, right associativity).
Notation "m ;;; k" := (Py.bind m (fun _ => k))
  (at level 100, right associativity).

(** ** Python dictionaries *)

Module Dict.

(** A [dict] with string keys and values.  Keys keep the order in which
    they were first set, which is the order pandas lays the columns
    out in. *)
Definition dict : Type := list (string * string).

Definition get (k : string) (d : dict) : option string := Soup.assoc k d.

(** [d[k] = v] *)
Fixpoint set (k v : string) (d : dict) : dict :=
  match d with
  | [] => [(k, v)]
  | (k', v') :: d' =>
      if String.eqb k' k then (k', v) :: d' else (k', v') :: set k v d'
  end.

Definition keys (d : dict) : list string := map fst d.

End Dict.

(** ** pandas frames *)

Module Pandas.

(** A cell holds a string or is missing (NaN). *)
Definition cell : Type := option string.

Record DataFrame : Type := Frame {
  columns : list string;
  rows : list (list cell)
}.

Definition add_key (cols : list string) (k : string) : list string :=
  if bool_decide (k ∈ cols) then cols else cols ++ [k].

(** The labels of [pd.DataFrame(data)]: every key of every record, in
    the order of first appearance. *)
Definition union_keys (data : list Dict.dict) : list string :=
  fold_left (fun cols d => fold_left add_key (Dict.keys d) cols) data [].

(** [pd.DataFrame(data)] for a list of records. *)
Definition from_records (data : list Dict.dict) : DataFrame :=
  let cols := union_keys data in
  Frame cols (map (fun d => map (fun c => Dict.get c d) cols) data).

(** [df.rename(columns = {old: new})] *)
Definition rename (old new : string) (df : DataFrame) : DataFrame :=
  Frame (map (fun c => if String.eqb c old then new else c) (columns df))
        (rows df).

Fixpoint index_of (c : string) (cols : list string) : option nat :=
  match cols with
  | [] => None
  | c' :: cols' => if String.eqb c' c then Some 0 else S <$> index_of c cols'
  end.

(** Strings compare by code point; missing cells sort last. *)
Definition cell_le (a b : cell) : Prop :=
  match a, b with
  | Some x, Some y => String.le x y
  | _, None => True
  | None, Some _ => False
  end.

Definition key_at (i : nat) (r : list cell) : cell := mjoin (r !! i).

Definition row_le (i : nat) (r1 r2 : list cell) : Prop :=
  cell_le (key_at i r1) (key_at i r2).

#[global] Instance cell_le_dec a b : Decision (cell_le a b).
Proof. destruct a, b; simpl; apply _. Defined.

#[global] Instance row_le_dec i r1 r2 : Decision (row_le i r1 r2).
Proof. unfold row_le. apply _. Defined.

(** [df.sort_values(by = label)].  pandas does not promise an order
    among rows with equal keys; the properties below do not rely on
    one. *)
Definition sort_values (label : string) (df : DataFrame) : result DataFrame :=
  match index_of label (columns df) with
  | None => Raise (KeyError label)
  | Some i => Ok (Frame (columns df) (merge_sort (row_le i) (rows df)))
  end.

(** The cells [df.to_csv(path, index=False)] writes: the header, then
    one line per row, a missing cell left empty. *)
Definition to_csv (df : DataFrame) : csv :=
  columns df :: map (map (default EmptyString)) (rows df).

End Pandas.

(** ** The script *)

Record Response : Type := mkResponse {
  status_code : Z;
  text : string
}.

Definition repo_base_url : string := "https://scale.stanford.edu".

Definition teaching_k12_search_url : string :=
  repo_base_url ++ "/genai/repository?search_api_fulltext=&application%5B42%5D=42&benefits%5B34%5D=34&benefits%5B36%5D=36&benefits%5B35%5D=35".

Definition impact_secondary_search_url : string :=
  repo_base_url ++ "/genai/repository?search_api_fulltext=&benefits%5B36%5D=36&benefits%5B35%5D=35&study_design%5B55%5D=55".

Definition search_urls : list string :=
  [teaching_k12_search_url; impact_secondary_search_url].

Definition warning (url : string) (status : Z) : string :=
  "Warning: Failed to retrieve " ++ url ++ " (status: " ++ pretty status ++ ").".

(** [extract_metadata_field(metadata_field, article_metadata)] *)
Definition extract_metadata_field
    (metadata_field : Soup.element) (article_metadata : Dict.dict)
  : IO Dict.dict :=
  let field_name_html := Soup.select_one Soup.sel_label metadata_field in
  match field_name_html with
  | None =>
      let field_name := "Abstract" in
      item_or_p <- Py.method (Soup.select_one Soup.sel_item_or_p metadata_field) ;;
      let field_value := Soup.get_text_strip item_or_p in
      Py.ret (Dict.set field_name field_value article_metadata)
  | Some label =>
      let field_name := Soup.get_text_strip label in
      let field_items := Soup.select Soup.sel_item metadata_field in
      item_values <-
        (if String.eqb field_name "Link" then
           publishing_link <- Py.subscriptable (Soup.select_one Soup.sel_a_href metadata_field) ;;
           Py.item "href" (Soup.attr "href" publishing_link)
         else
           Py.ret (fold_left
                     (fun item_values item =>
                        let item_value := Str.strip Str.is_newline (Soup.get_text item) in
                        item_values ++ item_value)
                     field_items EmptyString)) ;;
      Py.ret (Dict.set field_name item_values article_metadata)
  end.

(** [write_data_to_csv(data)], writing to [data_out]. *)
Definition write_data_to_csv (data_out : string) (data : list Dict.dict) : IO unit :=
  let data_gse_genai_articles := Pandas.from_records data in
  sorted <- Py.lift (Pandas.sort_values "Title"
                       (Pandas.rename "Who age?" "What age?" data_gse_genai_articles)) ;;
  Py.write_file data_out (Pandas.to_csv sorted) ;;;
  Py.print ("Wrote data to CSV at data " ++ data_out ++ ".").

Section Scraper.

(** The network and the HTML parser.  A URL is answered the same way
    every time it is fetched.  The script does not catch what
    [requests.get] raises (a timeout, a failed connection): such a run
    ends there.  The runs described here are those in which every fetch
    is answered, with whatever status. *)
Variable requests_get : string -> Response.
Variable BeautifulSoup : string -> Soup.element.

(** The working directory the script is started in. *)
Variable project_root : string.

Definition data_dir : string := project_root ++ "/data".
Definition data_out : string := data_dir ++ "/clean/gse_genai_articles.csv".

(** *** Page discovery *)

(** One turn of the loop over [search_urls]. *)
Definition pages_step (search_url : string) (pages_to_scrape : gset string)
  : IO (gset string) :=
  let response := requests_get search_url in
  if bool_decide (status_code response ≠ 200%Z) then
    Py.print (warning search_url (status_code response)) ;;;
    Py.ret pages_to_scrape
  else
    let parsed_response := BeautifulSoup (text response) in
    let pagination_data := Soup.select Soup.sel_pagination parsed_response in
    match pagination_data with
    | [] => Py.ret ({[search_url]} ∪ pages_to_scrape)
    | _ =>
        Py.for_each
          (fun page pages_to_scrape =>
             href <- Py.item "href" (Soup.attr "href" page) ;;
             let page_url := repo_base_url ++ "/genai/repository" ++ href in
             Py.ret ({[page_url]} ∪ pages_to_scrape))
          pagination_data pages_to_scrape
    end.

Definition identify_pages_to_scrape (search_urls : list string)
  : IO (gset string) :=
  Py.for_each pages_step search_urls ∅.

(** *** Article discovery *)

(** One turn of the loop over the cards of a page; the state is
    [(articles_to_scrape, article_titles)]. *)
Definition card_step (article : Soup.element) (st : gset string * gset string)
  : IO (gset string * gset string) :=
  let '(articles_to_scrape, article_titles) := st in
  title_link <- Py.method (Soup.select_one Soup.sel_card_title article) ;;
  let article_title := Soup.get_text_strip title_link in
  if bool_decide (article_title ∉ article_titles) then
    let article_titles := {[article_title]} ∪ article_titles in
    article_sub_url <- Py.subscriptable (Soup.select_one Soup.sel_card_link article) ;;
    href <- Py.item "href" (Soup.attr "href" article_sub_url) ;;
    let article_url := repo_base_url ++ href in
    Py.ret ({[article_url]} ∪ articles_to_scrape, article_titles)
  else
    Py.ret (articles_to_scrape, article_titles).

(** One turn of the loop over [page_urls]. *)
Definition articles_step (page_url : string) (st : gset string * gset string)
  : IO (gset string * gset string) :=
  let response := requests_get page_url in
  if bool_decide (status_code response ≠ 200%Z) then
    Py.print (warning page_url (status_code response)) ;;;
    Py.ret st
  else
    let parsed_response := BeautifulSoup (text response) in
    let articles_to_parse := Soup.select Soup.sel_cards parsed_response in
    Py.for_each card_step articles_to_parse st.

(** [page_urls] is a set; the list is the order the loop meets it in. *)
Definition identify_articles_to_scrape (page_urls : list string)
  : IO (gset string) :=
  st <- Py.for_each articles_step page_urls (∅, ∅) ;;
  let articles_to_scrape := st.1 in
  Py.print ("Identified " ++ pretty (size articles_to_scrape)
            ++ " distinct articles to scrape.") ;;;
  Py.ret articles_to_scrape.

(** *** Article extraction *)

(** One turn of the loop over [articles_to_scrape]. *)
Definition extract_step (article : string) (article_data : list Dict.dict)
  : IO (list Dict.dict) :=
  let response := requests_get article in
  if bool_decide (status_code response ≠ 200%Z) then
    Py.print (warning article (status_code response)) ;;;
    Py.ret article_data
  else
    let parsed_article := BeautifulSoup (text response) in
    h1 <- Py.method (Soup.select_one Soup.sel_h1 parsed_article) ;;
    let title := Soup.get_text_strip h1 in
    let article_metadata := Dict.set "Title" title [] in
    node <- Py.method (Soup.select_one Soup.sel_node_content parsed_article) ;;
    let node_content := Soup.select Soup.sel_field node in
    article_metadata <-
      Py.for_each extract_metadata_field node_content article_metadata ;;
    Py.ret (article_data ++ [article_metadata])%list.

Definition extract_article_data (articles_to_scrape : list string)
  : IO (list Dict.dict) :=
  Py.print ("Attempting to scrape data from "
            ++ pretty (length articles_to_scrape) ++ " articles...") ;;;
  article_data <- Py.for_each extract_step articles_to_scrape [] ;;
  Py.print ("Successfully scraped data from "
            ++ pretty (length article_data) ++ " distinct articles.") ;;;
  Py.ret article_data.

(** *** The whole run *)

(** [page_urls] and [article_urls] are Python sets: a loop over one meets
    each member once, in an order the language does not fix.
    [order_pages] and [order_articles] are the orders in which the loops
    of article discovery and of article extraction meet them. *)
Variable order_pages : gset string -> list string.
Variable order_articles : gset string -> list string.

Definition main (search_urls : list string) : IO unit :=
  page_urls <- identify_pages_to_scrape search_urls ;;
  article_urls <- identify_articles_to_scrape (order_pages page_urls) ;;
  article_data <- extract_article_data (order_articles article_urls) ;;
  write_data_to_csv data_out article_data.

End Scraper.

(** ** Vocabulary for the stage properties *)

(** An order of iteration lists every member of the set once. *)
Definition enumerates (order : gset string -> list string) : Prop :=
  ∀ s, order s ≡ₚ elements s.

(** A computation that only prints: it returns [r] and appends [out] to
    the standard output, whatever the world it starts in. *)
Definition logs {A} (m : IO A) (r : result A) (out : list string) : Prop :=
  ∀ w, m w = (r, World (stdout w ++ out) (files w)).

Definition logging {A} (m : IO A) : Prop := ∃ r out, logs m r out.

(** The URL a page link resolves to. *)
Definition resolve (href : string) : string :=
  repo_base_url ++ "/genai/repository" ++ href.

(** The title a card is known by, and the URL it links to. *)
Definition card_title (article : Soup.element) : option string :=
  Soup.get_text_strip <$> Soup.select_one Soup.sel_card_title article.

Definition card_url (article : Soup.element) : option string :=
  a ← Soup.select_one Soup.sel_card_link article;
  href ← Soup.attr "href" a;
  Some (repo_base_url ++ href).

(** Card [c] is at position [i] of [cards] and no earlier card has its
    title. *)
Definition first_seen (cards : list Soup.element) (i : nat) (c : Soup.element) : Prop :=
  cards !! i = Some c ∧
  ∀ j c', j < i -> cards !! j = Some c' -> card_title c' ≠ card_title c.

(** What the loops of article discovery maintain, [cards] being the
    cards met so far and [st] the pair of sets: the titles are those of
    the cards met, the URLs are those of the cards first seen with their
    title, and there are no more URLs than titles. *)
Definition discovered (cards : list Soup.element) (st : gset string * gset string) : Prop :=
  (∀ t, t ∈ st.2 ↔ ∃ c, c ∈ cards ∧ card_title c = Some t) ∧
  (∀ url, url ∈ st.1 ↔ ∃ i c, first_seen cards i c ∧ card_url c = Some url) ∧
  (size st.1 ≤ size st.2)%nat.

(** The cards a listing page shows: none when the page is not served. *)
Definition cards_of (requests_get : string -> Response)
    (BeautifulSoup : string -> Soup.element) (page_url : string)
  : list Soup.element :=
  let response := requests_get page_url in
  if bool_decide (status_code response ≠ 200%Z) then []
  else Soup.select Soup.sel_cards (BeautifulSoup (text response)).

(** The cards of all pages, in the order the loops meet them. *)
Definition all_cards (requests_get : string -> Response)
    (BeautifulSoup : string -> Soup.element) (page_urls : list string)
  : list Soup.element :=
  flat_map (cards_of requests_get BeautifulSoup) page_urls.

(** ** What the writer is expected to store *)

(** [cols] lists its names in the order in which they first appear in
    [keys]: a name that stands before another has an occurrence in [keys]
    before which the other has not occurred. *)
Definition in_order_of_first_appearance (cols keys : list string) : Prop :=
  ∀ i j k1 k2,
    cols !! i = Some k1 -> cols !! j = Some k2 -> i < j ->
    ∃ n, keys !! n = Some k1 ∧ k2 ∉ take n keys.

(** The header written for the columns [cols]. *)
Definition header (cols : list string) : list string :=
  map (fun c => if String.eqb c "Who age?" then "What age?" else c) cols.

(** The line written for record [d] under the columns [cols]. *)
Definition line (cols : list string) (d : Dict.dict) : list string :=
  map (fun c => default EmptyString (Dict.get c d)) cols.

(** ** Sample pages *)

Module Sample.

Import Soup.

Definition nl : string := String Str.newline EmptyString.

Definition w0 : world := World [] ∅.

Definition field (kids : list node) : element :=
  Element [] (Head "div" ["field"] []) kids.

Definition label (s : string) : node :=
  Tag "div" ["field__label"] [] [NavigableString s].

Definition item (kids : list node) : node :=
  Tag "div" ["field__item"] [] kids.

(** A "Benefits" field with the two items "A\n" and "B\n". *)
Definition benefits : element :=
  field [label "Benefits";
         item [NavigableString ("A" ++ nl)];
         item [NavigableString ("B" ++ nl)]].

(** A "Link" field whose anchor reads "Read" and points to /papers/x. *)
Definition link : element :=
  field [label "Link";
         item [Tag "a" [] [("href", "/papers/x")] [NavigableString "Read"]]].

(** A field with no label and the item text " Summary text ". *)
Definition abstract : element :=
  field [item [NavigableString " Summary text "]].

(** A labelled field with no item. *)
Definition bare : element := field [label "Notes"].

(** The two records of the end-to-end example. *)
Definition two_records : list Dict.dict :=
  [[("Title", "B"); ("Who age?", "5-8")]; [("Title", "A"); ("Age", "9")]].


(** A small site.  Page texts are short names; the parser below knows
    the document each stands for. *)

Definition repository (query : string) : string :=
  repo_base_url ++ "/genai/repository" ++ query.

Definition page_link (href : string) : node :=
  Tag "li" [] [] [Tag "a" ["page-link"] [("href", href)] [NavigableString "page"]].

Definition card (title href : string) : node :=
  Tag "li" ["col"] []
    [Tag "div" ["card"] []
       [Tag "a" [] [("href", href); ("hreflang", "en")] [NavigableString title]]].

Definition requests_get (url : string) : Response :=
  if String.eqb url (repository "?q=plain") then mkResponse 200 "plain"
  else if String.eqb url (repository "?q=paged") then mkResponse 200 "paged"
  else if String.eqb url (repository "?p") then mkResponse 200 "self"
  else if String.eqb url (repository "?q=down") then mkResponse 503 "down"
  else if String.eqb url (repository "?page=0") then mkResponse 200 "listing0"
  else if String.eqb url (repository "?page=1") then mkResponse 200 "listing1"
  else if String.eqb url (repo_base_url ++ "/papers/alpha") then mkResponse 200 "alpha"
  else mkResponse 404 EmptyString.

Definition BeautifulSoup (text : string) : element :=
  if String.eqb text "plain" then
    document [Tag "ul" ["list-papers"] [] [card "Alpha" "/papers/alpha"]]
  else if String.eqb text "paged" then
    document [Tag "ul" ["pagination"] []
                [page_link "?page=0"; page_link "?page=1"; page_link "?page=0"]]
  else if String.eqb text "self" then
    document [Tag "ul" ["pagination"] [] [page_link "?p"]]
  else if String.eqb text "listing0" then
    document [Tag "ul" ["list-papers"] []
                [card "Alpha" "/papers/alpha"; card "Beta" "/papers/beta"]]
  else if String.eqb text "listing1" then
    document [Tag "ul" ["list-papers"] []
                [card "Alpha" "/papers/alpha-2"; card "Gamma" "/papers/gamma"]]
  else if String.eqb text "alpha" then
    document [Tag "h1" [] [] [NavigableString "Alpha"];
              Tag "div" ["node__content"] []
                [Tag "div" ["field"] [] [item [NavigableString " Summary text "]];
                 Tag "div" ["field"] [] [label "Benefits";
                                         item [NavigableString ("A" ++ nl)];
                                         item [NavigableString ("B" ++ nl)]]]]
  else document [].

End Sample.

(** ** What a seed contributes to page discovery *)

(** The listing pages one seed stands for: none when it is not served,
    the seed itself when its page has no pagination link, the resolved
    links otherwise.  [None] when a link has no [href]. *)
Definition seed_links (requests_get : string -> Response)
    (BeautifulSoup : string -> Soup.element) (search_url : string)
  : option (gset string) :=
  let response := requests_get search_url in
  if bool_decide (status_code response ≠ 200%Z) then Some ∅
  else
    match Soup.select Soup.sel_pagination (BeautifulSoup (text response)) with
    | [] => Some {[search_url]}
    | pagination_data =>
        hrefs ← mapM (Soup.attr "href") pagination_data;
        Some (list_to_set (resolve <$> hrefs))
    end.

(** The URLs of [l] that are served. *)
Definition served (requests_get : string -> Response) (l : list string) : list string :=
  filter (fun u => status_code (requests_get u) = 200%Z) l.

(** [d] is the record of the page at [u]: the turn of [u] appends it,
    whatever has been gathered and printed before. *)
Definition record_at (requests_get : string -> Response)
    (BeautifulSoup : string -> Soup.element) (u : string) (d : Dict.dict) : Prop :=
  ∀ data w, extract_step requests_get BeautifulSoup u data w = (Ok (data ++ [d])%list, w).

(** ** A site with faulty pages *)

Module Broken.

Import Soup.

(** A "Link" field without an anchor, and a field with nothing in it. *)
Definition link_without_anchor : element :=
  Sample.field [Sample.label "Link"; Sample.item [NavigableString "see the journal"]].

Definition empty_field : element := Sample.field [].

Definition requests_get (url : string) : Response :=
  if String.eqb url (Sample.repository "?q=nohref") then mkResponse 200 "nohref"
  else if String.eqb url (Sample.repository "?q=untitled") then mkResponse 200 "untitled"
  else if String.eqb url (repo_base_url ++ "/papers/noh1") then mkResponse 200 "noh1"
  else if String.eqb url (repo_base_url ++ "/papers/nocontent") then mkResponse 200 "nocontent"
  else mkResponse 404 EmptyString.

Definition BeautifulSoup (text : string) : element :=
  if String.eqb text "nohref" then
    document [Tag "ul" ["pagination"] []
                [Tag "li" [] [] [Tag "a" ["page-link"] [] [NavigableString "next"]]]]
  else if String.eqb text "untitled" then
    document [Tag "ul" ["list-papers"] []
                [Tag "li" ["col"] []
                   [Tag "div" ["card"] []
                      [Tag "a" [] [("href", "/papers/x")] [NavigableString "X"]]]]]
  else if String.eqb text "noh1" then
    document [Tag "div" ["node__content"] [] []]
  else if String.eqb text "nocontent" then
    document [Tag "h1" [] [] [NavigableString "T"]]
  else document [].

End Broken.

(** ** An abstract with markup inside *)

Module Nested.

Import Soup.

(** [<div class="field"><p> Uses <em>GPT-4</em> for tutoring </p></div>] *)
Definition abstract : element :=
  Sample.field
    [Tag "p" [] []
       [NavigableString " Uses ";
        Tag "em" [] [] [NavigableString "GPT-4"];
        NavigableString " for tutoring "]].

(** Its paragraph, as [select_one] returns it. *)
Definition paragraph : element :=
  Element [Head "div" ["field"] []] (Head "p" [] [])
    [NavigableString " Uses ";
     Tag "em" [] [] [NavigableString "GPT-4"];
     NavigableString " for tutoring "].

End Nested.

(** * Properties *)

(** ** Strings and dictionaries *)

Section StringFacts.

Lemma append_nil_r (s : string) : s ++ EmptyString = s.
Proof.
  induction s as [|c s IH]; [done|].
  change (String c (s ++ EmptyString) = String c s). by f_equal.
Qed.

Lemma append_assoc (s1 s2 s3 : string) : (s1 ++ s2) ++ s3 = s1 ++ (s2 ++ s3).
Proof.
  induction s1 as [|c s1 IH]; [done|].
  change (String c ((s1 ++ s2) ++ s3) = String c (s1 ++ (s2 ++ s3))). by f_equal.
Qed.

(** The accumulating loop [acc = acc + f(x)] builds [acc] followed by
    the join of the pieces. *)
Lemma fold_left_append {A} (f : A -> string) (l : list A) (acc : string) :
  fold_left (fun acc x => acc ++ f x) l acc = acc ++ Str.join (map f l).
Proof.
  revert acc. induction l as [|x l IH]; intros acc; simpl.
  - by rewrite append_nil_r.
  - by rewrite IH, append_assoc.
Qed.

(** On a tag holding a single string, [get_text(strip = True)] is that
    string stripped. *)
Lemma get_text_strip_single (e : Soup.element) (s : string) :
  Soup.all_strings e = [s] ->
  Soup.get_text_strip e = Str.strip Str.isspace s.
Proof.
  intros H. unfold Soup.get_text_strip. rewrite H. simpl.
  rewrite filter_cons. case_decide as Hs; simpl.
  - apply append_nil_r.
  - destruct (decide (Str.strip Str.isspace s = EmptyString)) as [->|]; done.
Qed.

End StringFacts.

Section DictFacts.

Lemma dict_get_set (k v : string) (d : Dict.dict) :
  Dict.get k (Dict.set k v d) = Some v.
Proof.
  unfold Dict.get. induction d as [|[k' v'] d IH]; simpl.
  - by rewrite String.eqb_refl.
  - destruct (String.eqb k' k) eqn:E; simpl; rewrite E; done.
Qed.

Lemma dict_get_set_ne (k k' v : string) (d : Dict.dict) :
  k ≠ k' -> Dict.get k' (Dict.set k v d) = Dict.get k' d.
Proof.
  intros Hne. unfold Dict.get. induction d as [|[k0 v0] d IH]; simpl.
  - destruct (String.eqb_spec k k'); done.
  - destruct (String.eqb_spec k0 k) as [->|]; simpl.
    + destruct (String.eqb_spec k k'); done.
    + by rewrite IH.
Qed.

End DictFacts.

(** ** Selection *)

Section SelectFacts.

Lemma select_one_elem (sel : list Soup.complex) (e a : Soup.element) :
  Soup.select_one sel e = Some a ->
  a ∈ Soup.descendants e ∧ existsb (fun s => Soup.match_complex s a) sel = true.
Proof.
  unfold Soup.select_one, Soup.select. intros H.
  assert (In a (List.filter (fun d => existsb (fun s => Soup.match_complex s d) sel)
                            (Soup.descendants e))) as Hin.
  { destruct (List.filter _ _) as [|x l]; simplify_eq/=. by left. }
  apply filter_In in Hin as [Hin Hm]. split; [by apply list_elem_of_In | done].
Qed.

(** What [a[href]] selects carries an [href]. *)
Lemma select_one_a_href (e a : Soup.element) :
  Soup.select_one Soup.sel_a_href e = Some a ->
  is_Some (Soup.attr "href" a).
Proof.
  intros H. apply select_one_elem in H as [_ H].
  simpl in H. rewrite orb_false_r in H.
  unfold Soup.match_complex in H. simpl in H.
  rewrite andb_true_r in H. unfold Soup.match_compound in H. simpl in H.
  apply andb_prop in H as [_ H]. by apply bool_decide_eq_true in H.
Qed.

End SelectFacts.

(** ** The field parser *)

Section FieldParser.

Variable metadata_field : Soup.element.
Variable article_metadata : Dict.dict.
Variable w : world.

(** The labelled, non-link branch, with the loop over the items
    written as a join. *)
Lemma labelled_field_value (label : Soup.element) :
  Soup.select_one Soup.sel_label metadata_field = Some label ->
  Soup.get_text_strip label ≠ "Link" ->
  extract_metadata_field metadata_field article_metadata w =
    (Ok (Dict.set (Soup.get_text_strip label)
           (Str.join (map (fun item => Str.strip Str.is_newline (Soup.get_text item))
                          (Soup.select Soup.sel_item metadata_field)))
           article_metadata),
     w).
Proof.
  intros Hlabel Hname. unfold extract_metadata_field. rewrite Hlabel.
  destruct (String.eqb_spec (Soup.get_text_strip label) "Link") as [|_]; [done|].
  unfold Py.bind, Py.ret. by rewrite fold_left_append.
Qed.

(** C4.  A field with a label other than "Link": the parser succeeds and
    sets the label's text to the texts of the field's item elements, in
    document order, each stripped of leading and trailing newlines (and
    of nothing else), joined with no separator. *)
Theorem labelled_field_joins_items (label : Soup.element) :
  Soup.select_one Soup.sel_label metadata_field = Some label ->
  Soup.get_text_strip label ≠ "Link" ->
  extract_metadata_field metadata_field article_metadata w =
    (Ok (Dict.set (Soup.get_text_strip label)
           (Str.join (map (fun item => Str.strip Str.is_newline (Soup.get_text item))
                          (Soup.select Soup.sel_item metadata_field)))
           article_metadata),
     w).
Proof. apply labelled_field_value. Qed.

(** C5.  A field labelled exactly "Link" that holds an anchor with an
    [href]: the parser sets "Link" to the [href] attribute of the first
    such anchor, whatever the anchor's text. *)
Theorem link_field_takes_href (label a : Soup.element) :
  Soup.select_one Soup.sel_label metadata_field = Some label ->
  Soup.get_text_strip label = "Link" ->
  Soup.select_one Soup.sel_a_href metadata_field = Some a ->
  ∃ href, Soup.attr "href" a = Some href ∧
    extract_metadata_field metadata_field article_metadata w =
      (Ok (Dict.set "Link" href article_metadata), w).
Proof.
  intros Hlabel Hname Ha.
  destruct (select_one_a_href _ _ Ha) as [href Hhref].
  exists href. split; [done|].
  unfold extract_metadata_field. rewrite Hlabel, Hname, Ha. simpl.
  unfold Py.bind, Py.subscriptable, Py.ret. by rewrite Hhref.
Qed.

(** C6, as the field parser has it.  A field without a label element:
    the parser sets "Abstract" to the text of the first element in
    document order that is a [div.field__item] or a [p], read as
    [get_text(strip = True)] reads it: every string below the element is
    stripped of whitespace, the empty ones are dropped and the rest are
    joined with nothing in between.  When the element holds a single
    string, that is the text of the element stripped of whitespace. *)
Theorem unlabelled_field_is_abstract (e : Soup.element) :
  Soup.select_one Soup.sel_label metadata_field = None ->
  Soup.select_one Soup.sel_item_or_p metadata_field = Some e ->
  extract_metadata_field metadata_field article_metadata w =
    (Ok (Dict.set "Abstract"
           (Str.join (filter (fun s => s ≠ EmptyString)
                             (map (Str.strip Str.isspace) (Soup.all_strings e))))
           article_metadata), w) ∧
  ∀ s, Soup.all_strings e = [s] ->
       extract_metadata_field metadata_field article_metadata w =
         (Ok (Dict.set "Abstract" (Str.strip Str.isspace (Soup.get_text e))
                article_metadata), w).
Proof.
  intros Hlabel He.
  assert (extract_metadata_field metadata_field article_metadata w =
            (Ok (Dict.set "Abstract" (Soup.get_text_strip e) article_metadata), w)) as Hrun.
  { unfold extract_metadata_field. by rewrite Hlabel, He. }
  split; [exact Hrun|]. intros s Hs. rewrite Hrun, (get_text_strip_single e s Hs).
  unfold Soup.get_text. rewrite Hs. simpl. by rewrite append_nil_r.
Qed.

(** C9.  A field with a label other than "Link" and no item element:
    the parser raises nothing and sets the label's text to the empty
    string, so the key is in the record afterwards. *)
Theorem labelled_field_without_items (label : Soup.element) :
  Soup.select_one Soup.sel_label metadata_field = Some label ->
  Soup.get_text_strip label ≠ "Link" ->
  Soup.select Soup.sel_item metadata_field = [] ->
  ∃ record,
    extract_metadata_field metadata_field article_metadata w = (Ok record, w) ∧
    record = Dict.set (Soup.get_text_strip label) EmptyString article_metadata ∧
    Dict.get (Soup.get_text_strip label) record = Some EmptyString.
Proof.
  intros Hlabel Hname Hitems. eexists. split; [|split; [done|]].
  - rewrite (labelled_field_value label Hlabel Hname), Hitems. done.
  - apply dict_get_set.
Qed.

End FieldParser.

(** The "Benefits" example: items "A\n" and "B\n" give "AB". *)
Lemma labelled_field_joins_items_benefits :
  Soup.select_one Soup.sel_label Sample.benefits
    = Some (Soup.Element [Soup.Head "div" ["field"] []]
              (Soup.Head "div" ["field__label"] []) [Soup.NavigableString "Benefits"]) ∧
  "Benefits" ≠ "Link" ∧
  extract_metadata_field Sample.benefits [("Title", "T")] Sample.w0
    = (Ok [("Title", "T"); ("Benefits", "AB")], Sample.w0).
Proof.
  split; [reflexivity|]. split; [discriminate|].
  apply (labelled_field_joins_items Sample.benefits [("Title", "T")] Sample.w0
           (Soup.Element [Soup.Head "div" ["field"] []]
              (Soup.Head "div" ["field__label"] []) [Soup.NavigableString "Benefits"])).
  - reflexivity.
  - vm_compute. discriminate.
Defined.

(** The "Link" example: the value is "/papers/x", not "Read". *)
Lemma link_field_takes_href_example :
  Soup.get_text_strip
    (Soup.Element [Soup.Head "div" ["field"] []]
       (Soup.Head "div" ["field__label"] []) [Soup.NavigableString "Link"]) = "Link" ∧
  extract_metadata_field Sample.link [("Title", "T")] Sample.w0
    = (Ok [("Title", "T"); ("Link", "/papers/x")], Sample.w0).
Proof.
  split; [reflexivity|].
  destruct (link_field_takes_href Sample.link [("Title", "T")] Sample.w0
              (Soup.Element [Soup.Head "div" ["field"] []]
                 (Soup.Head "div" ["field__label"] []) [Soup.NavigableString "Link"])
              (Soup.Element [Soup.Head "div" ["field__item"] []; Soup.Head "div" ["field"] []]
                 (Soup.Head "a" [] [("href", "/papers/x")]) [Soup.NavigableString "Read"]))
    as [href [Hhref Hrun]]; [reflexivity..|].
  vm_compute in Hhref. injection Hhref as <-. exact Hrun.
Defined.

(** The abstract example: " Summary text " gives "Summary text". *)
Lemma unlabelled_field_is_abstract_example :
  Soup.select_one Soup.sel_label Sample.abstract = None ∧
  Soup.all_strings
    (Soup.Element [Soup.Head "div" ["field"] []]
       (Soup.Head "div" ["field__item"] []) [Soup.NavigableString " Summary text "])
  = [" Summary text "] ∧
  extract_metadata_field Sample.abstract [("Title", "T")] Sample.w0
    = (Ok [("Title", "T"); ("Abstract", "Summary text")], Sample.w0).
Proof.
  split; [reflexivity|]. split; [reflexivity|].
  apply (proj2 (unlabelled_field_is_abstract Sample.abstract [("Title", "T")] Sample.w0
                  (Soup.Element [Soup.Head "div" ["field"] []]
                     (Soup.Head "div" ["field__item"] [])
                     [Soup.NavigableString " Summary text "])
                  eq_refl eq_refl) " Summary text ").
  reflexivity.
Defined.

(** The claim C6 as first stated does not hold of an element with more
    than one string: for the paragraph " Uses <em>GPT-4</em> for
    tutoring " the parser stores the strings stripped one by one and
    joined, which is not the text of the paragraph stripped of
    whitespace. *)
Lemma abstract_with_markup_is_run_together :
  Soup.select_one Soup.sel_label Nested.abstract = None ∧
  Soup.select_one Soup.sel_item_or_p Nested.abstract = Some Nested.paragraph ∧
  extract_metadata_field Nested.abstract [] Sample.w0
    = (Ok [("Abstract", "UsesGPT-4for tutoring")], Sample.w0) ∧
  Str.strip Str.isspace (Soup.get_text Nested.paragraph) = "Uses GPT-4 for tutoring" ∧
  extract_metadata_field Nested.abstract [] Sample.w0
    ≠ (Ok (Dict.set "Abstract" (Str.strip Str.isspace (Soup.get_text Nested.paragraph)) []),
       Sample.w0).
Proof.
  split; [reflexivity|]. split; [reflexivity|]. split; [reflexivity|].
  split; [reflexivity|]. vm_compute. discriminate.
Qed.

(** A "Notes" field with no item gives the empty string. *)
Lemma labelled_field_without_items_example :
  Soup.select Soup.sel_item Sample.bare = [] ∧
  ∃ record,
    extract_metadata_field Sample.bare [("Title", "T")] Sample.w0 = (Ok record, Sample.w0) ∧
    record = [("Title", "T"); ("Notes", EmptyString)] ∧
    Dict.get "Notes" record = Some EmptyString.
Proof.
  split; [reflexivity|].
  apply (labelled_field_without_items Sample.bare [("Title", "T")] Sample.w0
           (Soup.Element [Soup.Head "div" ["field"] []]
              (Soup.Head "div" ["field__label"] []) [Soup.NavigableString "Notes"])).
  - reflexivity.
  - vm_compute. discriminate.
  - reflexivity.
Defined.

(** ** The writer *)

Section FrameFacts.

Import Pandas.

Lemma add_key_elem (cols : list string) (k k' : string) :
  k' ∈ add_key cols k ↔ k' ∈ cols ∨ k' = k.
Proof.
  unfold add_key. case_bool_decide as Hk.
  - split; [by left | intros [?| ->]; done].
  - rewrite elem_of_app, list_elem_of_singleton. done.
Qed.

Lemma add_key_NoDup (cols : list string) (k : string) :
  NoDup cols -> NoDup (add_key cols k).
Proof.
  intros Hnd. unfold add_key. case_bool_decide as Hk; [done|].
  apply NoDup_app. split; [done|]. split.
  - intros x Hx ->%list_elem_of_singleton. done.
  - apply NoDup_singleton.
Qed.

Lemma add_keys_elem (ks cols : list string) (k : string) :
  k ∈ fold_left add_key ks cols ↔ k ∈ cols ∨ k ∈ ks.
Proof.
  revert cols. induction ks as [|k0 ks IH]; intros cols; simpl.
  - rewrite elem_of_nil. tauto.
  - rewrite IH, add_key_elem, elem_of_cons. tauto.
Qed.

Lemma add_keys_NoDup (ks cols : list string) :
  NoDup cols -> NoDup (fold_left add_key ks cols).
Proof.
  revert cols. induction ks as [|k0 ks IH]; intros cols Hnd; simpl; [done|].
  by apply IH, add_key_NoDup.
Qed.

Lemma union_keys_from_elem (data : list Dict.dict) (cols : list string) (k : string) :
  k ∈ fold_left (fun cols d => fold_left add_key (Dict.keys d) cols) data cols
  ↔ k ∈ cols ∨ ∃ d, d ∈ data ∧ k ∈ Dict.keys d.
Proof.
  revert cols. induction data as [|d data IH]; intros cols; simpl.
  - split; [by left | intros [?|(d & Hd & _)]; [done | by apply elem_of_nil in Hd]].
  - rewrite IH, add_keys_elem. split.
    + intros [[?|?]|(d' & ? & ?)]; [by left | right; exists d | right; exists d'];
        split; try done; by constructor.
    + intros [?|(d' & [->|?]%elem_of_cons & ?)]; [by left; left | by left; right |].
      right. by exists d'.
Qed.

(** The columns are the union of the records' keys ... *)
Lemma union_keys_elem (data : list Dict.dict) (k : string) :
  k ∈ union_keys data ↔ ∃ d, d ∈ data ∧ k ∈ Dict.keys d.
Proof.
  unfold union_keys. rewrite union_keys_from_elem, elem_of_nil. tauto.
Qed.

(** ... each listed once. *)
Lemma union_keys_NoDup (data : list Dict.dict) : NoDup (union_keys data).
Proof.
  unfold union_keys. generalize (NoDup_nil_2 (A := string)).
  generalize (@nil string). induction data as [|d data IH]; intros cols Hnd; simpl; [done|].
  by apply IH, add_keys_NoDup.
Qed.

Lemma index_of_elem (k : string) (cols : list string) :
  k ∈ cols -> is_Some (index_of k cols).
Proof.
  induction cols as [|c cols IH]; intros Hk; [by apply elem_of_nil in Hk|].
  simpl. destruct (String.eqb_spec c k) as [->|Hne]; [by eexists|].
  apply elem_of_cons in Hk as [->|Hk]; [done|].
  destruct (IH Hk) as [i ->]. by eexists.
Qed.

Lemma index_of_rename (k old new : string) (cols : list string) :
  old ≠ k -> new ≠ k ->
  index_of k (map (fun c => if String.eqb c old then new else c) cols)
  = index_of k cols.
Proof.
  intros Hold Hnew. induction cols as [|c cols IH]; [done|]. simpl.
  rewrite IH. destruct (String.eqb_spec c old) as [->|].
  - destruct (String.eqb_spec new k), (String.eqb_spec old k); done.
  - done.
Qed.

(** The cell of record [d] under the column found by [index_of]. *)
Lemma key_at_row (k : string) (cols : list string) (i : nat) (d : Dict.dict) :
  index_of k cols = Some i ->
  key_at i (map (fun c => Dict.get c d) cols) = Dict.get k d.
Proof.
  revert i. induction cols as [|c cols IH]; intros i Hi; [done|].
  simpl in Hi. destruct (String.eqb_spec c k) as [->|Hne].
  - by injection Hi as <-.
  - destruct (index_of k cols) as [j|]; [|done]. injection Hi as <-.
    by apply IH.
Qed.

#[local] Instance cell_le_trans : Transitive cell_le.
Proof.
  intros [x|] [y|] [z|]; simpl; try done. apply (transitivity (R := String.le)).
Qed.

#[local] Instance cell_le_total : Total cell_le.
Proof.
  intros [x|] [y|]; simpl; try tauto. apply (total String.le).
Qed.

#[local] Instance row_le_trans i : Transitive (row_le i).
Proof. intros r1 r2 r3. unfold row_le. apply transitivity. Qed.

#[local] Instance row_le_total i : Total (row_le i).
Proof. intros r1 r2. unfold row_le. apply total, _. Qed.

Lemma StronglySorted_map_inv {A B} (f : A -> B) (R : relation B) (l : list A) :
  StronglySorted R (map f l) -> StronglySorted (fun x y => R (f x) (f y)) l.
Proof.
  induction l as [|x l IH]; simpl; intros H; [constructor|].
  inversion H as [|? ? Hs Hall]; subst. constructor; [by apply IH|].
  by rewrite Forall_fmap in Hall.
Qed.

Lemma StronglySorted_weaken {A} (R1 R2 : relation A) (l : list A) :
  (∀ x y, R1 x y -> R2 x y) -> StronglySorted R1 l -> StronglySorted R2 l.
Proof. intros HR. induction 1; constructor; eauto using Forall_impl. Qed.

(** Sorting the rows sorts the records they were made from. *)
Lemma sort_rows_of_records (k : string) (cols : list string) (i : nat)
      (data : list Dict.dict) :
  index_of k cols = Some i ->
  ∃ sorted,
    sorted ≡ₚ data ∧
    StronglySorted (fun d1 d2 => cell_le (Dict.get k d1) (Dict.get k d2)) sorted ∧
    merge_sort (row_le i) (map (fun d => map (fun c => Dict.get c d) cols) data)
    = map (fun d => map (fun c => Dict.get c d) cols) sorted.
Proof.
  intros Hi.
  set (row := fun d : Dict.dict => map (fun c => Dict.get c d) cols).
  assert (merge_sort (row_le i) (map row data) ≡ₚ map row data) as HP
    by apply merge_sort_Permutation.
  apply Permutation_map_inv in HP as (sorted & Heq & Hperm).
  exists sorted. split; [by symmetry|]. split; [|done].
  pose proof (StronglySorted_merge_sort (row_le i) (map row data)) as Hs.
  rewrite Heq in Hs. apply StronglySorted_map_inv in Hs.
  eapply StronglySorted_weaken; [|exact Hs].
  intros d1 d2. unfold row_le, row. by rewrite !(key_at_row k cols i).
Qed.

Lemma index_of_None (k : string) (cols : list string) :
  k ∉ cols -> index_of k cols = None.
Proof.
  induction cols as [|c cols IH]; [done|]. intros Hk. simpl.
  destruct (String.eqb_spec c k) as [->|_]; [by destruct Hk; left|].
  rewrite IH; [done|]. intros Hin. apply Hk. by right.
Qed.

Lemma add_key_order (acc pre : list string) (k : string) :
  (∀ k', k' ∈ acc ↔ k' ∈ pre) ->
  in_order_of_first_appearance acc pre ->
  in_order_of_first_appearance (add_key acc k) (pre ++ [k])%list.
Proof.
  intros Hmem Hord i j k1 k2 Hi Hj Hij.
  assert (∀ n, pre !! n = Some k1 -> k2 ∉ take n pre ->
               ∃ n, (pre ++ [k])%list !! n = Some k1 ∧ k2 ∉ take n (pre ++ [k])%list) as Hlift.
  { intros n Hn Hnot. pose proof (lookup_lt_Some _ _ _ Hn). exists n.
    rewrite lookup_app_l, take_app_le by lia. done. }
  unfold add_key in Hi, Hj. case_bool_decide as Hk.
  - destruct (Hord i j k1 k2 Hi Hj Hij) as (n & Hn & Hnot). by apply (Hlift n).
  - destruct (decide (j < length acc)) as [Hlt|Hge].
    + rewrite lookup_app_l in Hi, Hj by lia.
      destruct (Hord i j k1 k2 Hi Hj Hij) as (n & Hn & Hnot). by apply (Hlift n).
    + apply lookup_snoc_Some in Hj as [[Hlt _]|[-> ->]]; [lia|].
      rewrite lookup_app_l in Hi by lia.
      assert (k1 ∈ pre) as [n Hn]%list_elem_of_lookup.
      { apply Hmem. by eapply list_elem_of_lookup_2. }
      apply (Hlift n Hn). intros Hin%subseteq_take. by apply Hk, Hmem.
Qed.

Lemma add_keys_order (ks acc pre : list string) :
  (∀ k, k ∈ acc ↔ k ∈ pre) ->
  in_order_of_first_appearance acc pre ->
  in_order_of_first_appearance (fold_left add_key ks acc) (pre ++ ks)%list.
Proof.
  revert acc pre. induction ks as [|k ks IH]; intros acc pre Hmem Hord; simpl.
  - by rewrite app_nil_r.
  - rewrite (cons_middle k pre ks), app_assoc. apply IH.
    + intros k'. rewrite add_key_elem, elem_of_app, list_elem_of_singleton, Hmem. done.
    + by apply add_key_order.
Qed.

Lemma union_keys_from_order (data : list Dict.dict) (acc pre : list string) :
  (∀ k, k ∈ acc ↔ k ∈ pre) ->
  in_order_of_first_appearance acc pre ->
  in_order_of_first_appearance
    (fold_left (fun cols d => fold_left add_key (Dict.keys d) cols) data acc)
    (pre ++ concat (map Dict.keys data))%list.
Proof.
  revert acc pre. induction data as [|d data IH]; intros acc pre Hmem Hord; simpl.
  - by rewrite app_nil_r.
  - rewrite app_assoc. apply IH.
    + intros k. rewrite add_keys_elem, elem_of_app, Hmem. done.
    + by apply add_keys_order.
Qed.

(** The columns stand in the order in which the keys first appear,
    going through the records in order and through each record's keys in
    order. *)
Lemma union_keys_order (data : list Dict.dict) :
  in_order_of_first_appearance (union_keys data) (concat (map Dict.keys data)).
Proof.
  unfold union_keys. apply (union_keys_from_order data [] []); [done|].
  intros i j k1 k2 Hi. done.
Qed.

End FrameFacts.

Section Writer.

Import Pandas.

Variable data_out : string.

(** The writer, with the sort laid open. *)
Lemma writer_run (data : list Dict.dict) (w : world) :
  write_data_to_csv data_out data w
  = match index_of "Title" (union_keys data) with
    | None => (Raise (KeyError "Title"), w)
    | Some i =>
        (Ok tt,
         World (stdout w ++ ["Wrote data to CSV at data " ++ data_out ++ "."])
               (<[data_out :=
                    header (union_keys data)
                    :: map (map (default EmptyString))
                         (merge_sort (row_le i)
                            (map (fun d => map (fun c => Dict.get c d) (union_keys data))
                                 data))]> (files w)))
    end.
Proof.
  unfold write_data_to_csv, Py.bind, Py.lift, sort_values. simpl.
  rewrite (index_of_rename "Title" "Who age?" "What age?") by discriminate.
  by destruct (index_of "Title" (union_keys data)).
Qed.

(** C3, as the writer has it.  When some record has a "Title", the
    writer stores a table whose columns are the union of the records'
    keys, each once and in the order of first appearance, with "Who age?"
    written as "What age?", and whose lines are the records in ascending
    order of "Title" (records without one last), a missing key left
    empty.  When no record has a "Title", the writer raises
    [KeyError: 'Title'] and stores nothing.  The two records B (with
    "Who age?") and A (with "Age") give the columns Title, What age?, Age,
    the line of A before the line of B, and an empty cell for the field
    each of them lacks. *)
Theorem writer_builds_sorted_table (data : list Dict.dict) (w : world) :
  ((∃ d, d ∈ data ∧ "Title" ∈ Dict.keys d) ->
   ∃ cols sorted,
     NoDup cols ∧
     (∀ k, k ∈ cols ↔ ∃ d, d ∈ data ∧ k ∈ Dict.keys d) ∧
     in_order_of_first_appearance cols (concat (map Dict.keys data)) ∧
     sorted ≡ₚ data ∧
     StronglySorted
       (fun d1 d2 => cell_le (Dict.get "Title" d1) (Dict.get "Title" d2)) sorted ∧
     write_data_to_csv data_out data w =
       (Ok tt,
        World (stdout w ++ ["Wrote data to CSV at data " ++ data_out ++ "."])
              (<[data_out := header cols :: map (line cols) sorted]> (files w)))) ∧
  ((∀ d, d ∈ data -> "Title" ∉ Dict.keys d) ->
   write_data_to_csv data_out data w = (Raise (KeyError "Title"), w)) ∧
  write_data_to_csv data_out Sample.two_records w =
    (Ok tt,
     World (stdout w ++ ["Wrote data to CSV at data " ++ data_out ++ "."])
           (<[data_out := [["Title"; "What age?"; "Age"];
                           ["A"; EmptyString; "9"];
                           ["B"; "5-8"; EmptyString]]]> (files w))).
Proof.
  split; [|split].
  - intros Htitle. apply union_keys_elem, index_of_elem in Htitle as [i Hi].
    destruct (sort_rows_of_records "Title" (union_keys data) i data Hi)
      as (sorted & Hperm & Hsorted & Hsort).
    exists (union_keys data), sorted.
    split; [apply union_keys_NoDup|]. split; [apply union_keys_elem|].
    split; [apply union_keys_order|]. split; [done|]. split; [done|].
    rewrite writer_run, Hi, Hsort. unfold line. rewrite map_map.
    by rewrite (map_ext _ _ (fun d => map_map (fun c => Dict.get c d)
                                        (default EmptyString) (union_keys data))).
  - intros Hno. rewrite writer_run, index_of_None; [done|].
    intros (d & Hd & Hk)%union_keys_elem. by apply (Hno d).
  - rewrite writer_run.
    assert (index_of "Title" (union_keys Sample.two_records) = Some 0) as -> by reflexivity.
    reflexivity.
Qed.

(** C10.  Given no record, the writer raises [KeyError: 'Title'] from
    the sort; nothing is written and nothing is printed. *)
Theorem writer_raises_on_no_records (w : world) :
  write_data_to_csv data_out [] w = (Raise (KeyError "Title"), w).
Proof. reflexivity. Qed.

End Writer.

(** The claim C3 as first stated does not hold of the empty list: no
    table is stored for it. *)
Lemma writer_stores_nothing_for_no_records :
  ¬ ∃ w' table,
      write_data_to_csv "out.csv" [] Sample.w0 = (Ok tt, w') ∧
      files w' !! "out.csv" = Some table.
Proof. intros (w' & table & Hrun & _). discriminate Hrun. Qed.

(** The end-to-end example: columns Title, What age?, Age, then the line
    of A (no "What age?") and the line of B (no "Age"). *)
Example writer_two_records :
  files (write_data_to_csv "out.csv" Sample.two_records Sample.w0).2 !! "out.csv"
  = Some [["Title"; "What age?"; "Age"];
          ["A"; EmptyString; "9"];
          ["B"; "5-8"; EmptyString]].
Proof. vm_compute. reflexivity. Qed.

Lemma writer_builds_sorted_table_two_records :
  (∃ d, d ∈ Sample.two_records ∧ "Title" ∈ Dict.keys d) ∧
  (∃ cols sorted,
     NoDup cols ∧
     (∀ k, k ∈ cols ↔ ∃ d, d ∈ Sample.two_records ∧ k ∈ Dict.keys d) ∧
     in_order_of_first_appearance cols (concat (map Dict.keys Sample.two_records)) ∧
     sorted ≡ₚ Sample.two_records ∧
     StronglySorted
       (fun d1 d2 => Pandas.cell_le (Dict.get "Title" d1) (Dict.get "Title" d2)) sorted ∧
     write_data_to_csv "out.csv" Sample.two_records Sample.w0 =
       (Ok tt,
        World (stdout Sample.w0 ++ ["Wrote data to CSV at data " ++ "out.csv" ++ "."])
              (<["out.csv" := header cols :: map (line cols) sorted]> (files Sample.w0)))) ∧
  write_data_to_csv "out.csv" Sample.two_records Sample.w0 =
    (Ok tt,
     World (stdout Sample.w0 ++ ["Wrote data to CSV at data " ++ "out.csv" ++ "."])
           (<["out.csv" := [["Title"; "What age?"; "Age"];
                            ["A"; EmptyString; "9"];
                            ["B"; "5-8"; EmptyString]]]> (files Sample.w0))).
Proof.
  assert (∃ d, d ∈ Sample.two_records ∧ "Title" ∈ Dict.keys d) as Htitle.
  { exists [("Title", "B"); ("Who age?", "5-8")]. split; [left | left]. }
  split; [exact Htitle|].
  destruct (writer_builds_sorted_table "out.csv" Sample.two_records Sample.w0)
    as (Htable & _ & Hexample).
  split; [exact (Htable Htitle) | exact Hexample].
Defined.

(** ** Computations that only print *)

Section Logging.

Lemma world_eta (w : world) : World (stdout w) (files w) = w.
Proof. by destruct w. Qed.

Lemma logs_ret {A} (a : A) : logs (Py.ret a) (Ok a) [].
Proof. intros w. unfold Py.ret. by rewrite app_nil_r, world_eta. Qed.

Lemma logs_raise {A} (e : exn) : logs (Py.raise (A := A) e) (Raise e) [].
Proof. intros w. unfold Py.raise. by rewrite app_nil_r, world_eta. Qed.

Lemma logs_print (line : string) : logs (Py.print line) (Ok tt) [line].
Proof. by intros w. Qed.

Lemma logs_bind_ok {A B} (m : IO A) (k : A -> IO B) a out1 r out2 :
  logs m (Ok a) out1 -> logs (k a) r out2 -> logs (Py.bind m k) r (out1 ++ out2).
Proof.
  intros Hm Hk w. unfold Py.bind. rewrite Hm, Hk. simpl. by rewrite app_assoc.
Qed.

Lemma logs_bind_raise {A B} (m : IO A) (k : A -> IO B) e out :
  logs m (Raise e) out -> logs (Py.bind m k) (Raise e) out.
Proof. intros Hm w. unfold Py.bind. by rewrite Hm. Qed.

Lemma logging_ret {A} (a : A) : logging (Py.ret a).
Proof. eexists _, _. apply logs_ret. Qed.

Lemma logging_raise {A} (e : exn) : logging (Py.raise (A := A) e).
Proof. eexists _, _. apply logs_raise. Qed.

Lemma logging_print (line : string) : logging (Py.print line).
Proof. eexists _, _. apply logs_print. Qed.

Lemma logging_bind {A B} (m : IO A) (k : A -> IO B) :
  logging m -> (∀ a, logging (k a)) -> logging (Py.bind m k).
Proof.
  intros ([a|e] & out1 & Hm) Hk.
  - destruct (Hk a) as (r & out2 & Hka). eexists _, _. by eapply logs_bind_ok.
  - eexists _, _. by eapply logs_bind_raise.
Qed.

Lemma logging_for_each {A S} (body : A -> S -> IO S) (l : list A) (s : S) :
  (∀ x s, logging (body x s)) -> logging (Py.for_each body l s).
Proof.
  intros Hbody. revert s. induction l as [|x l IH]; intros s; simpl.
  - apply logging_ret.
  - by apply logging_bind.
Qed.

Lemma logging_method {A} (o : option A) : logging (Py.method o).
Proof. destruct o; [apply logging_ret | apply logging_raise]. Qed.

Lemma logging_subscriptable {A} (o : option A) : logging (Py.subscriptable o).
Proof. destruct o; [apply logging_ret | apply logging_raise]. Qed.

Lemma logging_item (key : string) (o : option string) : logging (Py.item key o).
Proof. destruct o; [apply logging_ret | apply logging_raise]. Qed.

(** The result of such a computation does not depend on the world. *)
Lemma logging_result {A} (m : IO A) (w w' : world) :
  logging m -> (m w).1 = (m w').1.
Proof. intros (r & out & Hm). by rewrite (Hm w), (Hm w'). Qed.

(** Nor does it take lines back. *)
Lemma logging_keeps {A} (m : IO A) (w : world) (line : string) :
  logging m -> line ∈ stdout w -> line ∈ stdout (m w).2.
Proof.
  intros (r & out & Hm) Hin. rewrite (Hm w). simpl. apply elem_of_app. by left.
Qed.

Lemma bind_result {A B} (m m' : IO A) (k : A -> IO B) (w w' : world) :
  (m w).1 = (m' w').1 -> (∀ a, logging (k a)) ->
  (Py.bind m k w).1 = (Py.bind m' k w').1.
Proof.
  intros Hm Hk. unfold Py.bind.
  destruct (m w) as [[a|e] w1], (m' w') as [[a'|e'] w1']; simplify_eq/=; [|done].
  by apply logging_result.
Qed.

(** Dropping an element whose turn changes nothing leaves the outcome of
    a loop as it was. *)
Lemma for_each_skip {S} (body : string -> S -> IO S) (u : string) (l : list string) :
  (∀ x s, logging (body x s)) ->
  (∀ s w, (body u s w).1 = Ok s) ->
  ∀ s w w',
    (Py.for_each body l s w).1
    = (Py.for_each body (filter (fun x => x ≠ u) l) s w').1.
Proof.
  intros Hlog Hskip. induction l as [|x l IH]; intros s w w'; [done|].
  rewrite filter_cons. case_decide as Hx.
  - simpl. unfold Py.bind.
    rewrite (surjective_pairing (body x s w)), (surjective_pairing (body x s w')).
    rewrite (logging_result _ w w' (Hlog x s)).
    destruct (body x s w').1; [apply IH | done].
  - subst x. simpl. unfold Py.bind.
    rewrite (surjective_pairing (body u s w)), Hskip. apply IH.
Qed.

(** A line printed in the turn of [u] is on the output of a loop that
    comes to an end and has [u] on its way. *)
Lemma for_each_prints {S} (body : string -> S -> IO S) (u line : string) (l : list string) :
  (∀ x s, logging (body x s)) ->
  (∀ s w, line ∈ stdout (body u s w).2) ->
  u ∈ l ->
  ∀ s w, is_ok (Py.for_each body l s w).1 = true ->
         line ∈ stdout (Py.for_each body l s w).2.
Proof.
  intros Hlog Hline. induction l as [|x l IH]; intros Hu s w; [by apply elem_of_nil in Hu|].
  simpl. unfold Py.bind. destruct (body x s w) as [[s'|e] w1] eqn:Hx; [|done].
  intros Hok. destruct (decide (x = u)) as [->|Hne].
  - apply logging_keeps; [by apply logging_for_each|].
    specialize (Hline s w). by rewrite Hx in Hline.
  - apply elem_of_cons in Hu as [->|Hu]; [done|]. by apply IH.
Qed.

End Logging.

(** ** Page discovery *)

Section PageDiscovery.

Variable requests_get : string -> Response.
Variable BeautifulSoup : string -> Soup.element.

(** The loop over the pagination links adds each resolved [href]. *)
Lemma page_links_loop (links : list Soup.element) (hrefs : list string)
      (pages : gset string) (w : world) :
  mapM (Soup.attr "href") links = Some hrefs ->
  Py.for_each
    (fun page pages_to_scrape =>
       href <- Py.item "href" (Soup.attr "href" page) ;;
       let page_url := repo_base_url ++ "/genai/repository" ++ href in
       Py.ret ({[page_url]} ∪ pages_to_scrape))
    links pages w
  = (Ok (list_to_set (resolve <$> hrefs) ∪ pages), w).
Proof.
  revert hrefs pages. induction links as [|page links IH]; intros hrefs pages Hhrefs.
  - change (Some [] = Some hrefs) in Hhrefs. injection Hhrefs as <-.
    simpl. unfold Py.ret. f_equal. f_equal. set_solver.
  - simpl in Hhrefs. destruct (Soup.attr "href" page) as [href|] eqn:Hpage; [|done].
    simpl in Hhrefs. destruct (mapM (Soup.attr "href") links) as [hrefs'|] eqn:Hrest; [|done].
    change (Some (href :: hrefs') = Some hrefs) in Hhrefs. injection Hhrefs as <-.
    simpl. unfold Py.bind at 1. rewrite Hpage. simpl.
    rewrite (IH hrefs' _ eq_refl). f_equal. f_equal. unfold resolve. set_solver.
Qed.

Lemma pages_step_paginated (seed : string) (links : list Soup.element)
      (hrefs : list string) (pages : gset string) (w : world) :
  status_code (requests_get seed) = 200%Z ->
  Soup.select Soup.sel_pagination (BeautifulSoup (text (requests_get seed))) = links ->
  links ≠ [] ->
  mapM (Soup.attr "href") links = Some hrefs ->
  pages_step requests_get BeautifulSoup seed pages w = (Ok (list_to_set (resolve <$> hrefs) ∪ pages), w).
Proof.
  intros Hstatus Hlinks Hne Hhrefs. unfold pages_step.
  rewrite Hstatus, Hlinks. rewrite bool_decide_eq_false_2 by (intros H; by apply H).
  destruct links as [|page links]; [done|]. by apply page_links_loop.
Qed.

Lemma pages_step_unpaginated (seed : string) (pages : gset string) (w : world) :
  status_code (requests_get seed) = 200%Z ->
  Soup.select Soup.sel_pagination (BeautifulSoup (text (requests_get seed))) = [] ->
  pages_step requests_get BeautifulSoup seed pages w = (Ok ({[seed]} ∪ pages), w).
Proof.
  intros Hstatus Hlinks. unfold pages_step.
  rewrite Hstatus, Hlinks. by rewrite bool_decide_eq_false_2 by (intros H; by apply H).
Qed.

(** C1, as page discovery has it.  A seed served with status 200 whose
    page has pagination links, each with an [href]: its turn adds exactly
    the links resolved against the base path to the set, and run on that
    seed alone the stage returns exactly that set (a set, so without
    repetitions).  The seed is in it exactly when one of the links
    resolves to the seed. *)
Theorem paginated_seed_yields_resolved_links
    (seed : string) (links : list Soup.element) (hrefs : list string) :
  status_code (requests_get seed) = 200%Z ->
  Soup.select Soup.sel_pagination (BeautifulSoup (text (requests_get seed))) = links ->
  links ≠ [] ->
  mapM (Soup.attr "href") links = Some hrefs ->
  (∀ pages w,
     pages_step requests_get BeautifulSoup seed pages w = (Ok (list_to_set (resolve <$> hrefs) ∪ pages), w)) ∧
  (∀ w, identify_pages_to_scrape requests_get BeautifulSoup [seed] w = (Ok (list_to_set (resolve <$> hrefs)), w)) ∧
  (seed ∈ (list_to_set (resolve <$> hrefs) : gset string)
   ↔ ∃ href, href ∈ hrefs ∧ seed = resolve href).
Proof.
  intros Hstatus Hlinks Hne Hhrefs. split; [|split].
  - intros pages w. by eapply pages_step_paginated.
  - intros w. unfold identify_pages_to_scrape. simpl. unfold Py.bind.
    rewrite (pages_step_paginated seed links hrefs) by done. unfold Py.ret.
    f_equal. f_equal. set_solver.
  - rewrite elem_of_list_to_set, list_elem_of_fmap. naive_solver.
Qed.

(** C7.  A seed served with status 200 whose page has no pagination
    link: its turn adds the seed URL itself and nothing else, and run on
    that seed alone the stage returns the singleton of the seed. *)
Theorem unpaginated_seed_yields_itself (seed : string) :
  status_code (requests_get seed) = 200%Z ->
  Soup.select Soup.sel_pagination (BeautifulSoup (text (requests_get seed))) = [] ->
  (∀ pages w, pages_step requests_get BeautifulSoup seed pages w = (Ok ({[seed]} ∪ pages), w)) ∧
  (∀ w, identify_pages_to_scrape requests_get BeautifulSoup [seed] w = (Ok {[seed]}, w)).
Proof.
  intros Hstatus Hlinks. split.
  - intros pages w. by apply pages_step_unpaginated.
  - intros w. unfold identify_pages_to_scrape. simpl. unfold Py.bind.
    rewrite pages_step_unpaginated by done. unfold Py.ret.
    f_equal. f_equal. set_solver.
Qed.

End PageDiscovery.

(** The claim C1 as first stated does not hold: a pagination link may
    resolve to the seed, which is then in the output. *)
Lemma paginated_seed_in_output :
  status_code (Sample.requests_get (Sample.repository "?p")) = 200%Z ∧
  Soup.select Soup.sel_pagination
    (Sample.BeautifulSoup (text (Sample.requests_get (Sample.repository "?p")))) ≠ [] ∧
  ∃ pages,
    identify_pages_to_scrape Sample.requests_get Sample.BeautifulSoup
      [Sample.repository "?p"] Sample.w0 = (Ok pages, Sample.w0) ∧
    Sample.repository "?p" ∈ pages.
Proof.
  split; [reflexivity|]. split; [vm_compute; discriminate|].
  eexists. split; [vm_compute; reflexivity|]. vm_compute. reflexivity.
Qed.

(** The seed "?q=paged" links to page 0, page 1 and page 0 again. *)
Lemma paginated_seed_yields_resolved_links_sample :
  status_code (Sample.requests_get (Sample.repository "?q=paged")) = 200%Z ∧
  mapM (Soup.attr "href")
    (Soup.select Soup.sel_pagination
       (Sample.BeautifulSoup (text (Sample.requests_get (Sample.repository "?q=paged")))))
  = Some ["?page=0"; "?page=1"; "?page=0"] ∧
  ∀ w, identify_pages_to_scrape Sample.requests_get Sample.BeautifulSoup
         [Sample.repository "?q=paged"] w
       = (Ok (list_to_set (resolve <$> ["?page=0"; "?page=1"; "?page=0"])), w).
Proof.
  split; [reflexivity|]. split; [reflexivity|].
  apply (paginated_seed_yields_resolved_links
           Sample.requests_get Sample.BeautifulSoup (Sample.repository "?q=paged")
           (Soup.select Soup.sel_pagination
              (Sample.BeautifulSoup
                 (text (Sample.requests_get (Sample.repository "?q=paged")))))
           ["?page=0"; "?page=1"; "?page=0"]).
  - reflexivity.
  - reflexivity.
  - vm_compute. discriminate.
  - reflexivity.
Defined.

(** The seed "?q=plain" has no pagination. *)
Lemma unpaginated_seed_yields_itself_sample :
  status_code (Sample.requests_get (Sample.repository "?q=plain")) = 200%Z ∧
  Soup.select Soup.sel_pagination
    (Sample.BeautifulSoup (text (Sample.requests_get (Sample.repository "?q=plain")))) = [] ∧
  ∀ w, identify_pages_to_scrape Sample.requests_get Sample.BeautifulSoup
         [Sample.repository "?q=plain"] w
       = (Ok {[Sample.repository "?q=plain"]}, w).
Proof.
  split; [reflexivity|]. split; [reflexivity|].
  apply (unpaginated_seed_yields_itself
           Sample.requests_get Sample.BeautifulSoup (Sample.repository "?q=plain"));
    reflexivity.
Defined.

(** ** Pages that are not served *)

Ltac logging :=
  repeat first
    [ apply logging_ret | apply logging_raise | apply logging_print
    | apply logging_method | apply logging_subscriptable | apply logging_item
    | apply logging_for_each; intros
    | apply logging_bind; [|intros]
    | case_match ].

Lemma bind_keeps {A B} (m : IO A) (k : A -> IO B) (w : world) (line : string) :
  (∀ a, logging (k a)) ->
  (is_ok (m w).1 = true -> line ∈ stdout (m w).2) ->
  is_ok (Py.bind m k w).1 = true -> line ∈ stdout (Py.bind m k w).2.
Proof.
  intros Hk Hm. unfold Py.bind. destruct (m w) as [[a|e] w1]; simpl in *; [|done].
  intros _. apply logging_keeps; auto.
Qed.

Lemma print_then {A} (line : string) (m : IO A) (w : world) :
  (Py.print line ;;; m) w = m (World (stdout w ++ [line]) (files w)).
Proof. reflexivity. Qed.

Lemma logging_extract_metadata_field (field : Soup.element) (record : Dict.dict) :
  logging (extract_metadata_field field record).
Proof. unfold extract_metadata_field. logging. Qed.

Section FailedFetch.

Variable requests_get : string -> Response.
Variable BeautifulSoup : string -> Soup.element.

Lemma logging_pages_step (x : string) (pages : gset string) :
  logging (pages_step requests_get BeautifulSoup x pages).
Proof. unfold pages_step. logging. Qed.

Lemma logging_card_step (article : Soup.element) (st : gset string * gset string) :
  logging (card_step article st).
Proof. unfold card_step. destruct st. logging. Qed.

Lemma logging_articles_step (x : string) (st : gset string * gset string) :
  logging (articles_step requests_get BeautifulSoup x st).
Proof. unfold articles_step. logging. apply logging_card_step. Qed.

Lemma logging_extract_step (x : string) (data : list Dict.dict) :
  logging (extract_step requests_get BeautifulSoup x data).
Proof. unfold extract_step. logging. apply logging_extract_metadata_field. Qed.

Variable u : string.
Hypothesis not_served : status_code (requests_get u) ≠ 200%Z.

Lemma pages_step_failed (pages : gset string) (w : world) :
  pages_step requests_get BeautifulSoup u pages w
  = (Ok pages,
     World (stdout w ++ [warning u (status_code (requests_get u))]) (files w)).
Proof. unfold pages_step. by rewrite bool_decide_eq_true_2. Qed.

Lemma articles_step_failed (st : gset string * gset string) (w : world) :
  articles_step requests_get BeautifulSoup u st w
  = (Ok st,
     World (stdout w ++ [warning u (status_code (requests_get u))]) (files w)).
Proof. unfold articles_step. by rewrite bool_decide_eq_true_2. Qed.

Lemma extract_step_failed (data : list Dict.dict) (w : world) :
  extract_step requests_get BeautifulSoup u data w
  = (Ok data,
     World (stdout w ++ [warning u (status_code (requests_get u))]) (files w)).
Proof. unfold extract_step. by rewrite bool_decide_eq_true_2. Qed.

Lemma warned (w : world) (line : string) : line ∈ (stdout w ++ [line])%list.
Proof. apply elem_of_app. right. by apply list_elem_of_singleton. Qed.

End FailedFetch.

Section Skipping.

Variable requests_get : string -> Response.
Variable BeautifulSoup : string -> Soup.element.

(** C8.  A URL answered with a status other than 200 is skipped in each
    of the three stages: its turn of the loop prints the warning, leaves
    what has been gathered as it is and ends normally, so the loop goes
    on; the stage returns what it returns on the input without that URL;
    and a run of the stage that comes to an end with the URL in its input
    has the warning on its output. *)
Theorem failed_fetch_is_skipped (u : string) :
  status_code (requests_get u) ≠ 200%Z ->
  ((∀ pages w,
      pages_step requests_get BeautifulSoup u pages w
      = (Ok pages,
         World (stdout w ++ [warning u (status_code (requests_get u))]) (files w))) ∧
   (∀ l w,
      (identify_pages_to_scrape requests_get BeautifulSoup l w).1
      = (identify_pages_to_scrape requests_get BeautifulSoup
           (filter (fun x => x ≠ u) l) w).1) ∧
   (∀ l w,
      u ∈ l ->
      is_ok (identify_pages_to_scrape requests_get BeautifulSoup l w).1 = true ->
      warning u (status_code (requests_get u))
        ∈ stdout (identify_pages_to_scrape requests_get BeautifulSoup l w).2)) ∧
  ((∀ st w,
      articles_step requests_get BeautifulSoup u st w
      = (Ok st,
         World (stdout w ++ [warning u (status_code (requests_get u))]) (files w))) ∧
   (∀ l w,
      (identify_articles_to_scrape requests_get BeautifulSoup l w).1
      = (identify_articles_to_scrape requests_get BeautifulSoup
           (filter (fun x => x ≠ u) l) w).1) ∧
   (∀ l w,
      u ∈ l ->
      is_ok (identify_articles_to_scrape requests_get BeautifulSoup l w).1 = true ->
      warning u (status_code (requests_get u))
        ∈ stdout (identify_articles_to_scrape requests_get BeautifulSoup l w).2)) ∧
  ((∀ data w,
      extract_step requests_get BeautifulSoup u data w
      = (Ok data,
         World (stdout w ++ [warning u (status_code (requests_get u))]) (files w))) ∧
   (∀ l w,
      (extract_article_data requests_get BeautifulSoup l w).1
      = (extract_article_data requests_get BeautifulSoup
           (filter (fun x => x ≠ u) l) w).1) ∧
   (∀ l w,
      u ∈ l ->
      is_ok (extract_article_data requests_get BeautifulSoup l w).1 = true ->
      warning u (status_code (requests_get u))
        ∈ stdout (extract_article_data requests_get BeautifulSoup l w).2)).
Proof.
  intros Hu. split; [|split]; (split; [|split]).
  - intros. by apply pages_step_failed.
  - intros l w. unfold identify_pages_to_scrape. apply (for_each_skip _ u).
    + apply logging_pages_step.
    + intros s w0. by rewrite pages_step_failed.
  - intros l w Hin. unfold identify_pages_to_scrape. apply (for_each_prints _ u); [|..|done].
    + apply logging_pages_step.
    + intros s w0. rewrite pages_step_failed by done. apply warned.
  - intros. by apply articles_step_failed.
  - intros l w. unfold identify_articles_to_scrape. apply bind_result.
    + apply (for_each_skip _ u).
      * apply logging_articles_step.
      * intros s w0. by rewrite articles_step_failed.
    + intros st. logging.
  - intros l w Hin. unfold identify_articles_to_scrape. apply bind_keeps.
    + intros st. logging.
    + apply (for_each_prints _ u); [|..|done].
      * apply logging_articles_step.
      * intros s w0. rewrite articles_step_failed by done. apply warned.
  - intros. by apply extract_step_failed.
  - intros l w. unfold extract_article_data.
    rewrite !print_then. apply bind_result.
    + apply (for_each_skip _ u).
      * apply logging_extract_step.
      * intros s w0. by rewrite extract_step_failed.
    + intros data. logging.
  - intros l w Hin. unfold extract_article_data.
    rewrite !print_then. apply bind_keeps.
    + intros data. logging.
    + apply (for_each_prints _ u); [|..|done].
      * apply logging_extract_step.
      * intros s w0. rewrite extract_step_failed by done. apply warned.
Qed.

End Skipping.

(** The listing "?q=down" of the sample site is answered with 503. *)
Lemma failed_fetch_is_skipped_sample :
  status_code (Sample.requests_get (Sample.repository "?q=down")) ≠ 200%Z ∧
  (∀ l w,
     (identify_articles_to_scrape Sample.requests_get Sample.BeautifulSoup l w).1
     = (identify_articles_to_scrape Sample.requests_get Sample.BeautifulSoup
          (filter (fun x => x ≠ Sample.repository "?q=down") l) w).1) ∧
  (∀ l w,
     Sample.repository "?q=down" ∈ l ->
     is_ok (identify_articles_to_scrape Sample.requests_get Sample.BeautifulSoup l w).1 = true ->
     warning (Sample.repository "?q=down") 503
       ∈ stdout (identify_articles_to_scrape Sample.requests_get Sample.BeautifulSoup l w).2).
Proof.
  assert (status_code (Sample.requests_get (Sample.repository "?q=down")) ≠ 200%Z) as Hdown.
  { vm_compute. discriminate. }
  split; [exact Hdown|].
  destruct (failed_fetch_is_skipped Sample.requests_get Sample.BeautifulSoup
              (Sample.repository "?q=down") Hdown)
    as (_ & (_ & Hskip & Hwarn) & _).
  split; [exact Hskip | exact Hwarn].
Defined.

(** ** Article discovery *)

Section FirstSeen.

Lemma first_seen_snoc (cards : list Soup.element) (c c0 : Soup.element) (i : nat) :
  first_seen (cards ++ [c]) i c0
  ↔ first_seen cards i c0
    ∨ (i = length cards ∧ c0 = c ∧ ∀ c', c' ∈ cards -> card_title c' ≠ card_title c).
Proof.
  unfold first_seen. split.
  - intros [Hi Hfirst]. destruct (decide (i < length cards)) as [Hlt|Hge].
    + left. rewrite lookup_app_l in Hi by done. split; [done|].
      intros j c' Hj Hc'. apply (Hfirst j c' Hj). rewrite lookup_app_l by lia. done.
    + right. rewrite lookup_app_r in Hi by lia.
      destruct (i - length cards) as [|n] eqn:Hn; [|done].
      simpl in Hi. injection Hi as <-. split; [lia|]. split; [done|].
      intros c' [j Hj]%list_elem_of_lookup.
      pose proof (lookup_lt_Some _ _ _ Hj).
      apply (Hfirst j c'); [lia|]. by rewrite lookup_app_l by lia.
  - intros [[Hi Hfirst]|(-> & -> & Hfresh)].
    + pose proof (lookup_lt_Some _ _ _ Hi). split.
      * by rewrite lookup_app_l by done.
      * intros j c' Hj Hc'. rewrite lookup_app_l in Hc' by lia. by apply (Hfirst j).
    + split.
      * by rewrite lookup_app_r, Nat.sub_diag by lia.
      * intros j c' Hj Hc'. rewrite lookup_app_l in Hc' by lia.
        apply Hfresh. by eapply list_elem_of_lookup_2.
Qed.

(** Two cards first seen with the same title are one card. *)
Lemma first_seen_unique (cards : list Soup.element) (i1 i2 : nat) (c1 c2 : Soup.element) :
  first_seen cards i1 c1 -> first_seen cards i2 c2 ->
  card_title c1 = card_title c2 -> i1 = i2 ∧ c1 = c2.
Proof.
  intros [H1 F1] [H2 F2] Htitle.
  destruct (Nat.lt_total i1 i2) as [Hlt|[->|Hlt]].
  - by destruct (F2 i1 c1 Hlt H1).
  - split; [done | congruence].
  - by destruct (F1 i2 c2 Hlt H2).
Qed.

End FirstSeen.

Section ArticleDiscovery.

Variable requests_get : string -> Response.
Variable BeautifulSoup : string -> Soup.element.

(** What one turn of the loop over the cards does when it ends normally. *)
Lemma card_step_ok (c : Soup.element) (articles titles : gset string)
      (w w' : world) (st' : gset string * gset string) :
  card_step c (articles, titles) w = (Ok st', w') ->
  w' = w ∧
  ∃ t, card_title c = Some t ∧
       (((t ∉ titles) ∧
         ∃ url, card_url c = Some url ∧ st' = ({[url]} ∪ articles, {[t]} ∪ titles))
        ∨ (t ∈ titles ∧ st' = (articles, titles))).
Proof.
  unfold card_step, card_title, card_url, Py.bind.
  destruct (Soup.select_one Soup.sel_card_title c) as [a|]; simpl; [|done].
  case_bool_decide as Ht; simpl.
  - destruct (Soup.select_one Soup.sel_card_link c) as [b|]; simpl; [|done].
    destruct (Soup.attr "href" b) as [href|]; simpl; [|done].
    unfold Py.ret. intros [= <- <-]. split; [done|]. eexists. split; [done|].
    left. split; [done|]. by eexists.
  - unfold Py.ret. intros [= <- <-]. split; [done|]. eexists. split; [done|].
    right. split; [|done]. done.
Qed.

Lemma discovered_step (cards : list Soup.element) (c : Soup.element)
      (articles titles : gset string) (st' : gset string * gset string) (t : string) :
  discovered cards (articles, titles) ->
  card_title c = Some t ->
  ((t ∉ titles) ∧
   ∃ url, card_url c = Some url ∧ st' = ({[url]} ∪ articles, {[t]} ∪ titles))
  ∨ (t ∈ titles ∧ st' = (articles, titles)) ->
  discovered (cards ++ [c]) st'.
Proof.
  intros (Htitles & Hurls & Hsize) Hc Hcase. simpl in *.
  assert (∀ t', (∃ c0, c0 ∈ (cards ++ [c])%list ∧ card_title c0 = Some t')
                ↔ t' = t ∨ t' ∈ titles) as Hnew.
  { intros t'. rewrite Htitles. split.
    - intros (c0 & [Hin| ->%list_elem_of_singleton]%elem_of_app & H0).
      + right. by exists c0.
      + left. congruence.
    - intros [->|(c0 & Hin & H0)].
      + exists c. split; [|done]. apply elem_of_app. right. by apply list_elem_of_singleton.
      + exists c0. split; [|done]. apply elem_of_app. by left. }
  destruct Hcase as [(Hfresh & url & Hurl & ->)|(Hold & ->)]; repeat split; simpl.
  - intros Ht'. apply Hnew. set_solver.
  - intros Ht'. apply Hnew in Ht'. set_solver.
  - intros [->%elem_of_singleton|Hin]%elem_of_union.
    + exists (length cards), c. split; [|done]. apply first_seen_snoc. right.
      repeat split. intros c' Hc' Heq. apply Hfresh, Htitles. exists c'. split; congruence.
    + apply Hurls in Hin as (i & c0 & Hfirst & H0). exists i, c0. split; [|done].
      apply first_seen_snoc. by left.
  - intros (i & c0 & [Hfirst|(-> & -> & _)]%first_seen_snoc & H0).
    + apply elem_of_union. right. apply Hurls. by exists i, c0.
    + apply elem_of_union. left. apply elem_of_singleton. congruence.
  - rewrite (size_union_alt {[url]} articles), (size_union {[t]} titles) by set_solver.
    rewrite !size_singleton.
    assert (articles ∖ {[url]} ⊆ articles) as Hsub by set_solver.
    apply subseteq_size in Hsub. lia.
  - intros Ht'. apply Hnew. right. done.
  - intros Ht'. apply Hnew in Ht' as [->|]; done.
  - intros Hin. apply Hurls in Hin as (i & c0 & Hfirst & H0). exists i, c0.
    split; [|done]. apply first_seen_snoc. by left.
  - intros (i & c0 & [Hfirst|(-> & -> & Hfresh)]%first_seen_snoc & H0).
    + apply Hurls. by exists i, c0.
    + apply Htitles in Hold as (c' & Hin & Hc'). destruct (Hfresh c' Hin). congruence.
  - done.
Qed.

Lemma cards_loop (cs prev : list Soup.element) (st st' : gset string * gset string)
      (w w' : world) :
  discovered prev st ->
  Py.for_each card_step cs st w = (Ok st', w') ->
  discovered (prev ++ cs) st' ∧ w' = w.
Proof.
  revert prev st w. induction cs as [|c cs IH]; intros prev st w Hinv; simpl.
  - unfold Py.ret. intros [= <- <-]. by rewrite app_nil_r.
  - unfold Py.bind. destruct (card_step c st w) as [[st1|e] w1] eqn:Hc; [|done].
    destruct st as [articles titles].
    apply card_step_ok in Hc as (-> & t & Ht & Hcase).
    intros Hrest. apply (IH (prev ++ [c])%list) in Hrest.
    + by rewrite <- app_assoc in Hrest.
    + by eapply discovered_step.
Qed.

Lemma pages_loop (page_urls : list string) (prev : list Soup.element)
      (st st' : gset string * gset string) (w w' : world) :
  discovered prev st ->
  Py.for_each (articles_step requests_get BeautifulSoup) page_urls st w = (Ok st', w') ->
  discovered (prev ++ all_cards requests_get BeautifulSoup page_urls) st'.
Proof.
  revert prev st w. induction page_urls as [|x page_urls IH]; intros prev st w Hinv; simpl.
  - unfold Py.ret. intros [= <- <-]. by rewrite app_nil_r.
  - unfold Py.bind.
    destruct (articles_step requests_get BeautifulSoup x st w) as [[st1|e] w1] eqn:Hx; [|done].
    intros Hrest. rewrite app_assoc. apply (IH _ st1 w1); [|done].
    unfold articles_step in Hx. unfold cards_of. case_bool_decide.
    + unfold Py.bind, Py.print, Py.ret in Hx. simplify_eq/=. by rewrite app_nil_r.
    + by apply (cards_loop _ _ _ _ _ _ Hinv) in Hx as [? _].
Qed.

Lemma discovered_nil : discovered [] (∅, ∅).
Proof.
  repeat split; simpl.
  - set_solver.
  - intros (c & Hc & _). by apply elem_of_nil in Hc.
  - set_solver.
  - intros (i & c & [Hi _] & _). done.
  - done.
Qed.

(** C2.  When article discovery returns, the URLs it returns are those
    of the cards first seen with their title, going through the pages in
    the order of the loop and through the cards of a page in document
    order; cards first seen with one title are one card; and there are at
    most as many URLs as there are distinct titles. *)
Theorem one_article_per_title
    (page_urls : list string) (w w' : world) (articles : gset string) :
  identify_articles_to_scrape requests_get BeautifulSoup page_urls w = (Ok articles, w') ->
  (∀ url, url ∈ articles
          ↔ ∃ i c, first_seen (all_cards requests_get BeautifulSoup page_urls) i c ∧
                   card_url c = Some url) ∧
  (∀ i1 c1 i2 c2,
     first_seen (all_cards requests_get BeautifulSoup page_urls) i1 c1 ->
     first_seen (all_cards requests_get BeautifulSoup page_urls) i2 c2 ->
     card_title c1 = card_title c2 -> i1 = i2 ∧ c1 = c2) ∧
  (size articles
   ≤ size (list_to_set (omap card_title (all_cards requests_get BeautifulSoup page_urls))
           : gset string))%nat.
Proof.
  unfold identify_articles_to_scrape. unfold Py.bind at 1.
  destruct (Py.for_each _ page_urls (∅, ∅) w) as [[st|e] w1] eqn:Hloop; [|done].
  rewrite print_then. unfold Py.ret. intros [= <- _].
  apply (pages_loop _ [] _ _ _ _ discovered_nil) in Hloop as (Htitles & Hurls & Hsize).
  simpl in *. split; [done|].
  split; [intros i1 c1 i2 c2; apply first_seen_unique|].
  replace (list_to_set _) with st.2; [done|].
  apply set_eq. intros t. rewrite Htitles, elem_of_list_to_set, list_elem_of_omap. done.
Qed.

(** Article discovery returns whenever every card it meets has a title
    link and a link with an [href]. *)
Lemma card_step_returns (c : Soup.element) (st : gset string * gset string) (w : world) :
  is_Some (card_title c) -> is_Some (card_url c) ->
  ∃ st', card_step c st w = (Ok st', w).
Proof.
  unfold card_step, card_title, card_url, Py.bind. destruct st as [articles titles].
  destruct (Soup.select_one Soup.sel_card_title c) as [a|]; simpl; [|by intros []].
  intros _. destruct (Soup.select_one Soup.sel_card_link c) as [b|]; simpl; [|by intros []].
  destruct (Soup.attr "href" b) as [href|]; simpl; [|by intros []].
  intros _. case_bool_decide; by eexists.
Qed.

Lemma cards_loop_returns (cs : list Soup.element) (st : gset string * gset string)
      (w : world) :
  Forall (fun c => is_Some (card_title c) ∧ is_Some (card_url c)) cs ->
  ∃ st', Py.for_each card_step cs st w = (Ok st', w).
Proof.
  intros Hcs. revert st. induction Hcs as [|c cs [Ht Hu] _ IH]; intros st; simpl.
  - by eexists.
  - destruct (card_step_returns c st w Ht Hu) as [st1 Hc].
    unfold Py.bind. rewrite Hc. apply IH.
Qed.

Lemma discovery_returns (page_urls : list string) (w : world) :
  Forall (fun c => is_Some (card_title c) ∧ is_Some (card_url c))
         (all_cards requests_get BeautifulSoup page_urls) ->
  ∃ articles w',
    identify_articles_to_scrape requests_get BeautifulSoup page_urls w = (Ok articles, w').
Proof.
  intros Hcards. unfold identify_articles_to_scrape.
  assert (∀ st w, ∃ st' w',
            Py.for_each (articles_step requests_get BeautifulSoup) page_urls st w
            = (Ok st', w')) as Hloop.
  { clear w. induction page_urls as [|x page_urls IH]; intros st w; simpl.
    - by eexists _, _.
    - simpl in Hcards. apply Forall_app in Hcards as [Hx Hrest].
      unfold Py.bind at 1. unfold articles_step at 1. unfold cards_of in Hx.
      case_bool_decide.
      + rewrite print_then. unfold Py.ret. by apply IH.
      + destruct (cards_loop_returns _ st w Hx) as [st1 ->]. by apply IH. }
  destruct (Hloop (∅, ∅) w) as (st & w1 & Hrun).
  unfold Py.bind at 1. rewrite Hrun. rewrite print_then. by eexists _, _.
Qed.

End ArticleDiscovery.

(** Two listing pages of the sample site show "Alpha" under two different
    links; only the first is kept. *)
Lemma one_article_per_title_sample :
  identify_articles_to_scrape Sample.requests_get Sample.BeautifulSoup
    [Sample.repository "?page=0"; Sample.repository "?page=1"] Sample.w0
  = (Ok {[ repo_base_url ++ "/papers/alpha";
           repo_base_url ++ "/papers/beta";
           repo_base_url ++ "/papers/gamma" ]},
     World ["Identified 3 distinct articles to scrape."] ∅) ∧
  (size ({[ repo_base_url ++ "/papers/alpha";
            repo_base_url ++ "/papers/beta";
            repo_base_url ++ "/papers/gamma" ]} : gset string)
   ≤ size (list_to_set
             (omap card_title
                (all_cards Sample.requests_get Sample.BeautifulSoup
                   [Sample.repository "?page=0"; Sample.repository "?page=1"]))
           : gset string))%nat.
Proof.
  assert (identify_articles_to_scrape Sample.requests_get Sample.BeautifulSoup
            [Sample.repository "?page=0"; Sample.repository "?page=1"] Sample.w0
          = (Ok {[ repo_base_url ++ "/papers/alpha";
                   repo_base_url ++ "/papers/beta";
                   repo_base_url ++ "/papers/gamma" ]},
             World ["Identified 3 distinct articles to scrape."] ∅)) as Hrun.
  { vm_compute. reflexivity. }
  split; [exact Hrun|].
  exact (proj2 (proj2 (one_article_per_title Sample.requests_get Sample.BeautifulSoup
                         _ _ _ _ Hrun))).
Defined.

(** * Further properties of the script *)

(** ** The field parser: what it changes and when it raises *)

Section FieldParserEdges.

Variable metadata_field : Soup.element.
Variable article_metadata : Dict.dict.
Variable w : world.

Lemma extract_metadata_field_ok (record : Dict.dict) (w' : world) :
  extract_metadata_field metadata_field article_metadata w = (Ok record, w') ->
  w' = w ∧ ∃ name value, record = Dict.set name value article_metadata.
Proof.
  unfold extract_metadata_field, Py.bind.
  destruct (Soup.select_one Soup.sel_label metadata_field) as [label|].
  - destruct (String.eqb (Soup.get_text_strip label) "Link").
    + destruct (Soup.select_one Soup.sel_a_href metadata_field) as [a|]; simpl; [|done].
      destruct (Soup.attr "href" a) as [href|]; simpl; [|done].
      unfold Py.ret. intros [= <- <-]. split; [done|]. by eexists _, _.
    + unfold Py.ret. intros [= <- <-]. split; [done|]. by eexists _, _.
  - destruct (Soup.select_one Soup.sel_item_or_p metadata_field) as [e|]; simpl; [|done].
    unfold Py.ret. intros [= <- <-]. split; [done|]. by eexists _, _.
Qed.

(** X1.  When the field parser returns, it has printed nothing and
    written no file, and the record it returns is the given record with
    one key set: that key has the new value and every other key has the
    value it had. *)
Theorem field_parser_sets_one_key (record : Dict.dict) (w' : world) :
  extract_metadata_field metadata_field article_metadata w = (Ok record, w') ->
  w' = w ∧
  ∃ name value,
    Dict.get name record = Some value ∧
    ∀ key, key ≠ name -> Dict.get key record = Dict.get key article_metadata.
Proof.
  intros (-> & name & value & ->)%extract_metadata_field_ok. split; [done|].
  exists name, value. split; [apply dict_get_set|].
  intros key Hkey. apply dict_get_set_ne. congruence.
Qed.

(** A field labelled "Link" with no anchor carrying an [href]: the
    parser raises [TypeError] (the subscript of [None]); nothing is
    printed. *)
Lemma link_field_without_anchor_raises (label : Soup.element) :
  Soup.select_one Soup.sel_label metadata_field = Some label ->
  Soup.get_text_strip label = "Link" ->
  Soup.select_one Soup.sel_a_href metadata_field = None ->
  extract_metadata_field metadata_field article_metadata w = (Raise TypeError, w).
Proof.
  intros Hlabel Hname Ha. unfold extract_metadata_field.
  by rewrite Hlabel, Hname, Ha.
Qed.

(** A field with no label and neither a [div.field__item] nor a [p]
    below it: the parser raises [AttributeError] ([get_text] of [None]). *)
Lemma unlabelled_field_without_text_raises :
  Soup.select_one Soup.sel_label metadata_field = None ->
  Soup.select_one Soup.sel_item_or_p metadata_field = None ->
  extract_metadata_field metadata_field article_metadata w = (Raise AttributeError, w).
Proof.
  intros Hlabel He. unfold extract_metadata_field. by rewrite Hlabel, He.
Qed.

(** X2.  The field parser raises in two cases and no other: with
    [AttributeError] when the field has no label and neither a
    [div.field__item] nor a [p], and with [TypeError] when the label reads
    "Link" and the field has no anchor with an [href].  In particular it
    never raises [KeyError]. *)
Theorem field_parser_raises_iff (e : exn) :
  (extract_metadata_field metadata_field article_metadata w).1 = Raise e
  ↔ (e = AttributeError ∧
     Soup.select_one Soup.sel_label metadata_field = None ∧
     Soup.select_one Soup.sel_item_or_p metadata_field = None)
    ∨ (e = TypeError ∧
       ∃ label, Soup.select_one Soup.sel_label metadata_field = Some label ∧
                Soup.get_text_strip label = "Link" ∧
                Soup.select_one Soup.sel_a_href metadata_field = None).
Proof.
  split.
  - unfold extract_metadata_field, Py.bind.
    destruct (Soup.select_one Soup.sel_label metadata_field) as [label|] eqn:Hlabel.
    + destruct (String.eqb_spec (Soup.get_text_strip label) "Link") as [Hname|_]; [|done].
      destruct (Soup.select_one Soup.sel_a_href metadata_field) as [a|] eqn:Ha; simpl.
      * destruct (select_one_a_href _ _ Ha) as [href ->]. done.
      * intros [= <-]. right. split; [done|]. by exists label.
    + destruct (Soup.select_one Soup.sel_item_or_p metadata_field); simpl; [done|].
      intros [= <-]. by left.
  - intros [(-> & Hlabel & He)|(-> & label & Hlabel & Hname & Ha)].
    + by rewrite unlabelled_field_without_text_raises.
    + by rewrite (link_field_without_anchor_raises label).
Qed.

End FieldParserEdges.

Lemma field_parser_sets_one_key_benefits :
  extract_metadata_field Sample.benefits [("Title", "T"); ("Benefits", "old")] Sample.w0
  = (Ok [("Title", "T"); ("Benefits", "AB")], Sample.w0) ∧
  ∃ name value,
    Dict.get name [("Title", "T"); ("Benefits", "AB")] = Some value ∧
    ∀ key, key ≠ name ->
           Dict.get key [("Title", "T"); ("Benefits", "AB")]
           = Dict.get key [("Title", "T"); ("Benefits", "old")].
Proof.
  assert (extract_metadata_field Sample.benefits
            [("Title", "T"); ("Benefits", "old")] Sample.w0
          = (Ok [("Title", "T"); ("Benefits", "AB")], Sample.w0)) as Hrun
    by reflexivity.
  split; [exact Hrun|].
  exact (proj2 (field_parser_sets_one_key _ _ _ _ _ Hrun)).
Defined.

Lemma link_field_without_anchor_raises_sample :
  Soup.select_one Soup.sel_a_href Broken.link_without_anchor = None ∧
  extract_metadata_field Broken.link_without_anchor [("Title", "T")] Sample.w0
  = (Raise TypeError, Sample.w0).
Proof.
  split; [reflexivity|].
  apply (link_field_without_anchor_raises Broken.link_without_anchor [("Title", "T")]
           Sample.w0
           (Soup.Element [Soup.Head "div" ["field"] []]
              (Soup.Head "div" ["field__label"] []) [Soup.NavigableString "Link"]));
    reflexivity.
Defined.

Lemma unlabelled_field_without_text_raises_sample :
  Soup.select_one Soup.sel_item_or_p Broken.empty_field = None ∧
  extract_metadata_field Broken.empty_field [("Title", "T")] Sample.w0
  = (Raise AttributeError, Sample.w0).
Proof.
  split; [reflexivity|].
  apply (unlabelled_field_without_text_raises Broken.empty_field [("Title", "T")] Sample.w0);
    reflexivity.
Defined.

(** ** Page discovery as a union over the seeds *)

Section PageUnion.

Variable requests_get : string -> Response.
Variable BeautifulSoup : string -> Soup.element.

Lemma page_links_loop_fails (links : list Soup.element) (pages : gset string) (w : world) :
  mapM (Soup.attr "href") links = None ->
  Py.for_each
    (fun page pages_to_scrape =>
       href <- Py.item "href" (Soup.attr "href" page) ;;
       let page_url := repo_base_url ++ "/genai/repository" ++ href in
       Py.ret ({[page_url]} ∪ pages_to_scrape))
    links pages w
  = (Raise (KeyError "href"), w).
Proof.
  revert pages. induction links as [|page links IH]; intros pages Hnone; [done|].
  simpl in Hnone. simpl. unfold Py.bind at 1.
  destruct (Soup.attr "href" page) as [href|]; simpl; [|done].
  simpl in Hnone. destruct (mapM (Soup.attr "href") links) as [hrefs|]; [done|].
  by apply IH.
Qed.

Lemma pages_step_seed_links (seed : string) (pages : gset string) (w : world) :
  (pages_step requests_get BeautifulSoup seed pages w).1
  = match seed_links requests_get BeautifulSoup seed with
    | Some links => Ok (links ∪ pages)
    | None => Raise (KeyError "href")
    end.
Proof.
  unfold pages_step, seed_links. case_bool_decide as Hstatus.
  - rewrite print_then. simpl. f_equal. set_solver.
  - destruct (Soup.select Soup.sel_pagination _) as [|page links] eqn:Hlinks; [done|].
    destruct (mapM (Soup.attr "href") (page :: links)) as [hrefs|] eqn:Hhrefs.
    + by rewrite (page_links_loop requests_get BeautifulSoup _ hrefs).
    + by rewrite page_links_loop_fails.
Qed.

Lemma pages_loop_seed_links (l : list string) (pages : gset string) (w : world) :
  (Py.for_each (pages_step requests_get BeautifulSoup) l pages w).1
  = match mapM (seed_links requests_get BeautifulSoup) l with
    | Some sets => Ok (⋃ sets ∪ pages)
    | None => Raise (KeyError "href")
    end.
Proof.
  revert pages w. induction l as [|seed l IH]; intros pages w.
  - simpl. f_equal. set_solver.
  - simpl. unfold Py.bind.
    pose proof (pages_step_seed_links seed pages w) as Hstep.
    destruct (pages_step requests_get BeautifulSoup seed pages w) as [r w1].
    simpl in Hstep. subst r.
    destruct (seed_links requests_get BeautifulSoup seed) as [links|]; simpl; [|done].
    rewrite IH. destruct (mapM _ l) as [sets|]; simpl; [|done].
    f_equal. set_solver.
Qed.

Lemma union_of_seed_links (l : list string) (sets : list (gset string)) (url : string) :
  mapM (seed_links requests_get BeautifulSoup) l = Some sets ->
  url ∈ ⋃ sets
  ↔ ∃ seed links, seed ∈ l ∧ seed_links requests_get BeautifulSoup seed = Some links ∧
                  url ∈ links.
Proof.
  intros Hsets%mapM_Some. rewrite elem_of_union_list. split.
  - intros (links & [i Hi]%list_elem_of_lookup & Hurl).
    destruct (Forall2_lookup_r _ _ _ _ _ Hsets Hi) as (seed & Hseed & Hlinks).
    exists seed, links. split; [by eapply list_elem_of_lookup_2 | done].
  - intros (seed & links & [i Hi]%list_elem_of_lookup & Hlinks & Hurl).
    destruct (Forall2_lookup_l _ _ _ _ _ Hsets Hi) as (links' & Hi' & Hlinks').
    exists links'. split; [by eapply list_elem_of_lookup_2 | congruence].
Qed.

(** What [seed_links] gives, spelled out. *)
Lemma seed_links_elem (seed url : string) (links : gset string) :
  seed_links requests_get BeautifulSoup seed = Some links ->
  url ∈ links
  ↔ status_code (requests_get seed) = 200%Z ∧
    ((Soup.select Soup.sel_pagination (BeautifulSoup (text (requests_get seed))) = [] ∧
      url = seed)
     ∨ ∃ link href,
         link ∈ Soup.select Soup.sel_pagination (BeautifulSoup (text (requests_get seed))) ∧
         Soup.attr "href" link = Some href ∧ url = resolve href).
Proof.
  unfold seed_links. case_bool_decide as Hstatus.
  - intros [= <-]. split; [set_solver | tauto].
  - destruct (Soup.select Soup.sel_pagination _) as [|page rest] eqn:Hsel.
    + intros [= <-]. rewrite elem_of_singleton. split.
      * intros ->. split; [done|]. by left.
      * intros (_ & [[_ ->]|(link & ? & Hin & _)]); [done | by apply elem_of_nil in Hin].
    + destruct (mapM (Soup.attr "href") (page :: rest)) as [hrefs|] eqn:Hhrefs; [|done].
      simpl. intros [= <-]. apply mapM_Some in Hhrefs.
      rewrite elem_of_list_to_set, list_elem_of_fmap. split.
      * intros (href & -> & [i Hi]%list_elem_of_lookup). split; [done|]. right.
        destruct (Forall2_lookup_r _ _ _ _ _ Hhrefs Hi) as (link & Hlink & Hattr).
        exists link, href. split; [by eapply list_elem_of_lookup_2 | done].
      * intros (_ & [[? _]|(link & href & [i Hi]%list_elem_of_lookup & Hattr & ->)]); [done|].
        destruct (Forall2_lookup_l _ _ _ _ _ Hhrefs Hi) as (href' & Hi' & Hattr').
        exists href. split; [done|]. assert (href' = href) as <- by congruence.
        by eapply list_elem_of_lookup_2.
Qed.

End PageUnion.

Section PageDiscoveryWhole.

Variable requests_get : string -> Response.
Variable BeautifulSoup : string -> Soup.element.

(** X3.  When page discovery returns, a URL is in the returned set
    exactly when some seed of the input is served with status 200 and
    either has no pagination link and is that URL, or has a pagination
    link whose [href] resolves to that URL. *)
Theorem page_discovery_membership
    (search_urls : list string) (w w' : world) (pages : gset string) :
  identify_pages_to_scrape requests_get BeautifulSoup search_urls w = (Ok pages, w') ->
  ∀ url,
    url ∈ pages
    ↔ ∃ seed,
        seed ∈ search_urls ∧ status_code (requests_get seed) = 200%Z ∧
        ((Soup.select Soup.sel_pagination (BeautifulSoup (text (requests_get seed))) = [] ∧
          url = seed)
         ∨ ∃ link href,
             link ∈ Soup.select Soup.sel_pagination
                      (BeautifulSoup (text (requests_get seed))) ∧
             Soup.attr "href" link = Some href ∧ url = resolve href).
Proof.
  intros Hrun url.
  pose proof (pages_loop_seed_links requests_get BeautifulSoup search_urls ∅ w) as Hloop.
  unfold identify_pages_to_scrape in Hrun. rewrite Hrun in Hloop. simpl in Hloop.
  destruct (mapM _ search_urls) as [sets|] eqn:Hsets; [|done].
  injection Hloop as ->.
  rewrite elem_of_union, (union_of_seed_links _ _ _ _ _ Hsets). split.
  - intros [(seed & links & Hin & Hlinks & Hurl)|?]; [|set_solver].
    exists seed. split; [done|]. by apply (seed_links_elem _ _ _ _ _ Hlinks).
  - intros (seed & Hin & Hseed). left.
    apply mapM_Some in Hsets. apply list_elem_of_lookup in Hin as [i Hi].
    destruct (Forall2_lookup_l _ _ _ _ _ Hsets Hi) as (links & _ & Hlinks).
    exists seed, links. split; [by eapply list_elem_of_lookup_2|]. split; [done|].
    by apply (seed_links_elem _ _ _ _ _ Hlinks).
Qed.

(** X4.  If page discovery returns a set for one list of seeds, it
    returns the same set for every list with the same members: neither
    the order of the seeds nor their repetition changes what is returned. *)
Theorem page_discovery_ignores_order
    (l l' : list string) (w w1 w' : world) (pages : gset string) :
  (∀ seed, seed ∈ l ↔ seed ∈ l') ->
  identify_pages_to_scrape requests_get BeautifulSoup l w = (Ok pages, w1) ->
  ∃ w1', identify_pages_to_scrape requests_get BeautifulSoup l' w' = (Ok pages, w1').
Proof.
  intros Hsame Hrun.
  pose proof (pages_loop_seed_links requests_get BeautifulSoup l ∅ w) as Hl.
  pose proof (pages_loop_seed_links requests_get BeautifulSoup l' ∅ w') as Hl'.
  unfold identify_pages_to_scrape in *. rewrite Hrun in Hl. simpl in Hl.
  destruct (mapM _ l) as [sets|] eqn:Hsets; [|done]. injection Hl as ->.
  destruct (mapM _ l') as [sets'|] eqn:Hsets'.
  - destruct (Py.for_each _ l' ∅ w') as [r w1']. simpl in Hl'. subst r.
    exists w1'. f_equal. f_equal. apply set_eq. intros url.
    rewrite !elem_of_union, (union_of_seed_links _ _ _ _ _ Hsets),
      (union_of_seed_links _ _ _ _ _ Hsets').
    by setoid_rewrite Hsame.
  - apply mapM_None in Hsets'. apply Exists_exists in Hsets' as (seed & Hin & Hnone).
    apply mapM_Some in Hsets. apply Hsame in Hin.
    apply list_elem_of_lookup in Hin as [i Hi].
    destruct (Forall2_lookup_l _ _ _ _ _ Hsets Hi) as (links & _ & Hlinks). congruence.
Qed.

(** X5.  A served seed with a pagination link that has no [href] makes
    page discovery raise, wherever the seed stands in the input: the stage
    returns no set. *)
Theorem pagination_link_without_href_raises
    (search_urls : list string) (seed : string) (link : Soup.element) (w : world) :
  seed ∈ search_urls ->
  status_code (requests_get seed) = 200%Z ->
  link ∈ Soup.select Soup.sel_pagination (BeautifulSoup (text (requests_get seed))) ->
  Soup.attr "href" link = None ->
  is_ok (identify_pages_to_scrape requests_get BeautifulSoup search_urls w).1 = false.
Proof.
  intros Hin Hstatus Hlink Hattr.
  unfold identify_pages_to_scrape. rewrite pages_loop_seed_links.
  rewrite (proj2 (mapM_None _ _)); [done|].
  apply Exists_exists. exists seed. split; [done|].
  unfold seed_links. rewrite bool_decide_eq_false_2 by (intros H; by apply H).
  destruct (Soup.select Soup.sel_pagination _) as [|page rest] eqn:Hsel;
    [by apply elem_of_nil in Hlink|].
  rewrite (proj2 (mapM_None _ _)); [done|].
  apply Exists_exists. exists link. by split.
Qed.

End PageDiscoveryWhole.

Lemma page_discovery_membership_sample :
  identify_pages_to_scrape Sample.requests_get Sample.BeautifulSoup
    [Sample.repository "?q=plain"; Sample.repository "?q=paged"] Sample.w0
  = (Ok {[ Sample.repository "?q=plain";
           Sample.repository "?page=0";
           Sample.repository "?page=1" ]}, Sample.w0) ∧
  ∀ url,
    url ∈ ({[ Sample.repository "?q=plain";
              Sample.repository "?page=0";
              Sample.repository "?page=1" ]} : gset string)
    ↔ ∃ seed,
        seed ∈ [Sample.repository "?q=plain"; Sample.repository "?q=paged"] ∧
        status_code (Sample.requests_get seed) = 200%Z ∧
        ((Soup.select Soup.sel_pagination
            (Sample.BeautifulSoup (text (Sample.requests_get seed))) = [] ∧
          url = seed)
         ∨ ∃ link href,
             link ∈ Soup.select Soup.sel_pagination
                      (Sample.BeautifulSoup (text (Sample.requests_get seed))) ∧
             Soup.attr "href" link = Some href ∧ url = resolve href).
Proof.
  assert (identify_pages_to_scrape Sample.requests_get Sample.BeautifulSoup
            [Sample.repository "?q=plain"; Sample.repository "?q=paged"] Sample.w0
          = (Ok {[ Sample.repository "?q=plain";
                   Sample.repository "?page=0";
                   Sample.repository "?page=1" ]}, Sample.w0)) as Hrun.
  { vm_compute. reflexivity. }
  split; [exact Hrun|].
  exact (page_discovery_membership Sample.requests_get Sample.BeautifulSoup _ _ _ _ Hrun).
Defined.

Lemma page_discovery_ignores_order_sample :
  (∀ seed,
     seed ∈ [Sample.repository "?q=plain"; Sample.repository "?q=paged"]
     ↔ seed ∈ [Sample.repository "?q=paged"; Sample.repository "?q=plain";
               Sample.repository "?q=paged"]) ∧
  ∃ w1',
    identify_pages_to_scrape Sample.requests_get Sample.BeautifulSoup
      [Sample.repository "?q=paged"; Sample.repository "?q=plain";
       Sample.repository "?q=paged"] Sample.w0
    = (Ok {[ Sample.repository "?q=plain";
             Sample.repository "?page=0";
             Sample.repository "?page=1" ]}, w1').
Proof.
  assert (∀ seed,
            seed ∈ [Sample.repository "?q=plain"; Sample.repository "?q=paged"]
            ↔ seed ∈ [Sample.repository "?q=paged"; Sample.repository "?q=plain";
                      Sample.repository "?q=paged"]) as Hsame.
  { intros seed. rewrite !elem_of_cons, !elem_of_nil. tauto. }
  split; [exact Hsame|].
  apply (page_discovery_ignores_order Sample.requests_get Sample.BeautifulSoup
           [Sample.repository "?q=plain"; Sample.repository "?q=paged"] _
           Sample.w0 Sample.w0 Sample.w0 _ Hsame).
  vm_compute. reflexivity.
Defined.

Lemma pagination_link_without_href_raises_sample :
  status_code (Broken.requests_get (Sample.repository "?q=nohref")) = 200%Z ∧
  is_ok (identify_pages_to_scrape Broken.requests_get Broken.BeautifulSoup
           [Sample.repository "?q=missing"; Sample.repository "?q=nohref"] Sample.w0).1
  = false.
Proof.
  split; [reflexivity|].
  apply (pagination_link_without_href_raises Broken.requests_get Broken.BeautifulSoup
           [Sample.repository "?q=missing"; Sample.repository "?q=nohref"]
           (Sample.repository "?q=nohref")
           (Soup.Element [Soup.Head "li" [] []; Soup.Head "ul" ["pagination"] [];
                          Soup.Head "[document]" [] []]
              (Soup.Head "a" ["page-link"] []) [Soup.NavigableString "next"])
           Sample.w0).
  - right. left.
  - reflexivity.
  - left.
  - reflexivity.
Defined.

(** ** Article discovery: when it returns *)

Section FirstSeenMore.

Lemma first_seen_app_l (l1 l2 : list Soup.element) (i : nat) (c : Soup.element) :
  i < length l1 -> first_seen (l1 ++ l2) i c ↔ first_seen l1 i c.
Proof.
  intros Hi. unfold first_seen. rewrite lookup_app_l by done.
  split; intros [Hc Hfirst]; (split; [done|]); intros j c' Hj Hc'.
  - apply (Hfirst j c' Hj). by rewrite lookup_app_l by lia.
  - apply (Hfirst j c' Hj). by rewrite lookup_app_l in Hc' by lia.
Qed.

Lemma first_seen_beyond (l : list Soup.element) (i : nat) (c : Soup.element) :
  (length l ≤ i)%nat -> ¬ first_seen l i c.
Proof. intros Hi [Hc _]. apply lookup_lt_Some in Hc. lia. Qed.

Lemma first_seen_middle (l1 l2 : list Soup.element) (c c0 : Soup.element) :
  first_seen (l1 ++ c :: l2) (length l1) c0
  ↔ c0 = c ∧ ∀ c', c' ∈ l1 -> card_title c' ≠ card_title c.
Proof.
  rewrite (cons_middle c l1 l2), app_assoc.
  rewrite first_seen_app_l by (rewrite length_app; simpl; lia).
  rewrite first_seen_snoc. split.
  - intros [Hfirst|(_ & -> & Hfresh)]; [|done].
    by destruct (first_seen_beyond l1 (length l1) c0).
  - intros [-> Hfresh]. by right.
Qed.

(** Every card has a card first seen with its title. *)
Lemma first_seen_exists (cards : list Soup.element) (c : Soup.element) :
  c ∈ cards -> ∃ i c0, first_seen cards i c0 ∧ card_title c0 = card_title c.
Proof.
  revert c. induction cards as [|x cards IH] using rev_ind; intros c Hc.
  { by apply elem_of_nil in Hc. }
  assert (∀ c, c ∈ cards ->
               ∃ i c0, first_seen (cards ++ [x]) i c0 ∧ card_title c0 = card_title c)
    as Hold.
  { intros c1 Hc1. destruct (IH c1 Hc1) as (i & c0 & Hfirst & Htitle).
    exists i, c0. split; [|done]. apply first_seen_snoc. by left. }
  apply elem_of_app in Hc as [Hc| ->%list_elem_of_singleton]; [by apply Hold|].
  destruct (decide (Exists (fun c' => card_title c' = card_title x) cards)) as [Hex|Hno].
  - apply Exists_exists in Hex as (c' & Hin & Htitle).
    destruct (Hold c' Hin) as (i & c0 & Hfirst & H0). exists i, c0. split; [done|]. congruence.
  - exists (length cards), x. split; [|done]. apply first_seen_snoc. right.
    repeat split. intros c' Hin Htitle. apply Hno, Exists_exists. by exists c'.
Qed.

End FirstSeenMore.

Section DiscoveryReturns.

Variable requests_get : string -> Response.
Variable BeautifulSoup : string -> Soup.element.

Lemma is_ok_bind {A B} (m : IO A) (k : A -> IO B) (w : world) :
  is_ok (Py.bind m k w).1 = true
  ↔ ∃ a w1, m w = (Ok a, w1) ∧ is_ok (k a w1).1 = true.
Proof.
  unfold Py.bind. destruct (m w) as [[a|e] w1]; simpl.
  - split; [by exists a, w1 | by intros (? & ? & [= <- <-] & ?)].
  - split; [done | by intros (? & ? & ? & ?)].
Qed.

(** One turn over a card ends normally exactly when the card has a title
    link and, if the title is new, a link with an [href]. *)
Lemma card_step_is_ok (c : Soup.element) (articles titles : gset string) (w : world) :
  is_ok (card_step c (articles, titles) w).1 = true
  ↔ ∃ t, card_title c = Some t ∧ (t ∉ titles -> is_Some (card_url c)).
Proof.
  unfold card_step, card_title, card_url, Py.bind.
  destruct (Soup.select_one Soup.sel_card_title c) as [a|]; simpl;
    [|split; [done | by intros (? & ? & _)]].
  case_bool_decide as Ht; simpl.
  - destruct (Soup.select_one Soup.sel_card_link c) as [b|]; simpl.
    + destruct (Soup.attr "href" b) as [href|]; simpl.
      * split; [|done]. intros _. eexists. split; [done|]. by eexists.
      * split; [done|]. intros (t & [= <-] & Hurl). by destruct (Hurl Ht) as [? ?].
    + split; [done|]. intros (t & [= <-] & Hurl). by destruct (Hurl Ht) as [? ?].
  - split; [|done]. intros _. eexists. split; [done|]. intros Hnew. by destruct (Hnew Ht).
Qed.

Lemma cards_loop_is_ok (cs prev : list Soup.element) (st : gset string * gset string)
      (w : world) :
  discovered prev st ->
  is_ok (Py.for_each card_step cs st w).1 = true
  ↔ Forall (fun c => is_Some (card_title c)) cs ∧
    ∀ i c, (length prev ≤ i)%nat -> first_seen (prev ++ cs) i c -> is_Some (card_url c).
Proof.
  revert prev st w. induction cs as [|c cs IH]; intros prev st w Hinv.
  { simpl. split; [|done]. intros _. split; [done|]. intros i c Hi Hfirst.
    rewrite app_nil_r in Hfirst. by destruct (first_seen_beyond prev i c). }
  simpl. rewrite is_ok_bind. destruct st as [articles titles].
  assert (∀ t, card_title c = Some t ->
               t ∉ titles ↔ first_seen (prev ++ c :: cs) (length prev) c) as Hnew.
  { intros t Ht. rewrite first_seen_middle. destruct Hinv as (Htitles & _). simpl in Htitles.
    rewrite Htitles. split.
    - intros Hno. split; [done|]. intros c' Hin Heq. apply Hno. exists c'. split; congruence.
    - intros [_ Hfresh] (c' & Hin & Hc'). destruct (Hfresh c' Hin). congruence. }
  assert (∀ i c0, first_seen (prev ++ c :: cs) i c0
                  ↔ first_seen ((prev ++ [c]) ++ cs) i c0) as Hshift.
  { intros i c0. by rewrite (cons_middle c prev cs), app_assoc. }
  split.
  - intros (st1 & w1 & Hstep & Hrest).
    pose proof Hstep as Hstep'. apply card_step_ok in Hstep' as (-> & t & Ht & Hcase).
    assert (is_ok (card_step c (articles, titles) w).1 = true) as Hok by by rewrite Hstep.
    apply card_step_is_ok in Hok as (t' & Ht' & Hurl).
    assert (t' = t) as -> by congruence.
    apply (IH (prev ++ [c])%list) in Hrest as [Hall Hfirsts];
      [|by eapply discovered_step].
    split; [constructor; [by eexists | done]|].
    intros i c0 Hi Hfirst. destruct (decide (i = length prev)) as [->|Hne].
    + pose proof Hfirst as Hfirst'. apply first_seen_middle in Hfirst' as [-> _].
      by apply Hurl, (Hnew t).
    + apply (Hfirsts i); [rewrite length_app; simpl; lia | by apply Hshift].
  - intros [Hall Hfirsts]. apply Forall_cons in Hall as [[t Ht] Hall].
    assert (is_ok (card_step c (articles, titles) w).1 = true) as Hok.
    { apply card_step_is_ok. exists t. split; [done|]. intros Hfresh.
      apply (Hfirsts (length prev)); [done | by apply (Hnew t)]. }
    destruct (card_step c (articles, titles) w) as [[st1|e] w1] eqn:Hstep; [|done].
    exists st1, w1. split; [done|].
    pose proof Hstep as Hstep'. apply card_step_ok in Hstep' as (-> & t' & Ht' & Hcase).
    apply (IH (prev ++ [c])%list); [by eapply discovered_step|]. split; [done|].
    intros i c0 Hi Hfirst. apply (Hfirsts i); [|by apply Hshift].
    rewrite length_app in Hi. simpl in Hi. lia.
Qed.

Lemma pages_loop_is_ok (page_urls : list string) (prev : list Soup.element)
      (st : gset string * gset string) (w : world) :
  discovered prev st ->
  is_ok (Py.for_each (articles_step requests_get BeautifulSoup) page_urls st w).1 = true
  ↔ Forall (fun c => is_Some (card_title c))
           (all_cards requests_get BeautifulSoup page_urls) ∧
    ∀ i c, (length prev ≤ i)%nat ->
           first_seen (prev ++ all_cards requests_get BeautifulSoup page_urls) i c ->
           is_Some (card_url c).
Proof.
  revert prev st w. induction page_urls as [|x page_urls IH]; intros prev st w Hinv.
  { simpl. split; [|done]. intros _. split; [done|]. intros i c Hi Hfirst.
    rewrite app_nil_r in Hfirst. by destruct (first_seen_beyond prev i c). }
  simpl. rewrite is_ok_bind, Forall_app.
  set (cs := cards_of requests_get BeautifulSoup x).
  set (rest := all_cards requests_get BeautifulSoup page_urls).
  assert (∀ st1 w1,
            articles_step requests_get BeautifulSoup x st w = (Ok st1, w1) ->
            discovered (prev ++ cs) st1) as Hstep_inv.
  { intros st1 w1 Hstep. unfold articles_step in Hstep. unfold cs, cards_of.
    case_bool_decide.
    - rewrite print_then in Hstep. unfold Py.ret in Hstep. simplify_eq/=.
      by rewrite app_nil_r.
    - by apply (cards_loop _ _ _ _ _ _ Hinv) in Hstep as [? _]. }
  assert (is_ok (articles_step requests_get BeautifulSoup x st w).1 = true
          ↔ Forall (fun c => is_Some (card_title c)) cs ∧
            ∀ i c, (length prev ≤ i)%nat -> first_seen (prev ++ cs) i c -> is_Some (card_url c))
    as Hstep_ok.
  { unfold articles_step, cs, cards_of. case_bool_decide.
    - rewrite print_then. simpl. split; [|done]. intros _. split; [done|].
      intros i c Hi Hfirst. rewrite app_nil_r in Hfirst.
      by destruct (first_seen_beyond prev i c).
    - by apply cards_loop_is_ok. }
  assert (∀ i c, i < length (prev ++ cs) ->
                 first_seen (prev ++ cs ++ rest) i c ↔ first_seen (prev ++ cs) i c)
    as Hfront.
  { intros i c Hi. rewrite app_assoc. by apply first_seen_app_l. }
  split.
  - intros (st1 & w1 & Hstep & Hrest).
    assert (is_ok (articles_step requests_get BeautifulSoup x st w).1 = true) as Hok
      by by rewrite Hstep.
    apply Hstep_ok in Hok as [Hcs Hcs_first].
    apply (IH (prev ++ cs)%list) in Hrest as [Hall Hfirsts]; [|by eapply Hstep_inv].
    split; [done|]. intros i c Hi Hfirst.
    destruct (decide (i < length (prev ++ cs))) as [Hlt|Hge].
    + apply (Hcs_first i); [done | by apply Hfront].
    + apply (Hfirsts i); [lia | by rewrite <- app_assoc].
  - intros [[Hcs Hall] Hfirsts].
    assert (is_ok (articles_step requests_get BeautifulSoup x st w).1 = true) as Hok.
    { apply Hstep_ok. split; [done|]. intros i c Hi Hfirst.
      apply (Hfirsts i); [done|]. apply Hfront; [|done].
      destruct Hfirst as [Hc _]. by apply lookup_lt_Some in Hc. }
    destruct (articles_step requests_get BeautifulSoup x st w) as [[st1|e] w1] eqn:Hstep;
      [|done].
    exists st1, w1. split; [done|].
    apply (IH (prev ++ cs)%list); [by eapply Hstep_inv|]. split; [done|].
    intros i c Hi Hfirst. apply (Hfirsts i); [|by rewrite app_assoc].
    rewrite length_app in Hi. lia.
Qed.

End DiscoveryReturns.

Section DiscoveryWhole.

Variable requests_get : string -> Response.
Variable BeautifulSoup : string -> Soup.element.

Lemma discovery_is_ok (page_urls : list string) (w : world) :
  is_ok (identify_articles_to_scrape requests_get BeautifulSoup page_urls w).1 = true
  ↔ Forall (fun c => is_Some (card_title c))
           (all_cards requests_get BeautifulSoup page_urls) ∧
    ∀ i c, first_seen (all_cards requests_get BeautifulSoup page_urls) i c ->
           is_Some (card_url c).
Proof.
  unfold identify_articles_to_scrape. rewrite is_ok_bind.
  pose proof (pages_loop_is_ok requests_get BeautifulSoup page_urls [] (∅, ∅) w
                discovered_nil) as Hloop.
  simpl in Hloop. split.
  - intros (st & w1 & Hrun & _).
    assert (is_ok (Py.for_each (articles_step requests_get BeautifulSoup)
                     page_urls (∅, ∅) w).1 = true) as Hok by by rewrite Hrun.
    apply Hloop in Hok as [Hall Hfirsts]. split; [done|].
    intros i c. apply Hfirsts. lia.
  - intros [Hall Hfirsts].
    assert (is_ok (Py.for_each (articles_step requests_get BeautifulSoup)
                     page_urls (∅, ∅) w).1 = true) as Hok.
    { apply Hloop. split; [done|]. intros i c _. apply Hfirsts. }
    destruct (Py.for_each _ page_urls (∅, ∅) w) as [[st|e] w1]; [|done].
    by exists st, w1.
Qed.

Lemma discovery_urls (page_urls : list string) (w w' : world) (articles : gset string) :
  identify_articles_to_scrape requests_get BeautifulSoup page_urls w = (Ok articles, w') ->
  ∀ url, url ∈ articles
         ↔ ∃ i c, first_seen (all_cards requests_get BeautifulSoup page_urls) i c ∧
                  card_url c = Some url.
Proof.
  unfold identify_articles_to_scrape. unfold Py.bind at 1.
  destruct (Py.for_each _ page_urls (∅, ∅) w) as [[st|e] w1] eqn:Hloop; [|done].
  rewrite print_then. unfold Py.ret. intros [= <- _].
  by apply (pages_loop _ _ _ [] _ _ _ _ discovered_nil) in Hloop as (_ & Hurls & _).
Qed.

(** X6.  Article discovery returns only if every card on the served
    pages has a title link and every card first seen with its title has a
    link with an [href]: one card without a title link, or one first-seen
    card without a link, makes the stage raise wherever it stands. *)
Theorem article_discovery_returns_only_if
    (page_urls : list string) (w w' : world) (articles : gset string) :
  identify_articles_to_scrape requests_get BeautifulSoup page_urls w = (Ok articles, w') ->
  Forall (fun c => is_Some (card_title c))
         (all_cards requests_get BeautifulSoup page_urls) ∧
  ∀ i c, first_seen (all_cards requests_get BeautifulSoup page_urls) i c ->
         is_Some (card_url c).
Proof. intros Hrun. apply (discovery_is_ok page_urls w). by rewrite Hrun. Qed.

(** With titles that fix the link, the first card of a title stands for
    all of them. *)
Lemma first_seen_urls (cards : list Soup.element) (url : string) :
  (∀ c1 c2, c1 ∈ cards -> c2 ∈ cards ->
            card_title c1 = card_title c2 -> card_url c1 = card_url c2) ->
  (∃ i c, first_seen cards i c ∧ card_url c = Some url)
  ↔ ∃ c, c ∈ cards ∧ card_url c = Some url.
Proof.
  intros Hfix. split.
  - intros (i & c & [Hc _] & Hurl). exists c. split; [|done].
    by eapply list_elem_of_lookup_2.
  - intros (c & Hin & Hurl). destruct (first_seen_exists cards c Hin) as (i & c0 & Hfirst & Ht).
    exists i, c0. split; [done|]. rewrite <- Hurl. apply Hfix; [|done..].
    destruct Hfirst as [Hc0 _]. by eapply list_elem_of_lookup_2.
Qed.

(** X7.  When cards with the same title always carry the same link, the
    order in which the listing pages are visited does not matter: if
    article discovery returns a set for one order, it returns the same set
    for every other order of the same pages. *)
Theorem article_discovery_order_free
    (l l' : list string) (w w1 w' : world) (articles : gset string) :
  l ≡ₚ l' ->
  (∀ c1 c2,
     c1 ∈ all_cards requests_get BeautifulSoup l ->
     c2 ∈ all_cards requests_get BeautifulSoup l ->
     card_title c1 = card_title c2 -> card_url c1 = card_url c2) ->
  identify_articles_to_scrape requests_get BeautifulSoup l w = (Ok articles, w1) ->
  ∃ w1', identify_articles_to_scrape requests_get BeautifulSoup l' w' = (Ok articles, w1').
Proof.
  intros Hperm Hfix Hrun.
  assert (all_cards requests_get BeautifulSoup l
          ≡ₚ all_cards requests_get BeautifulSoup l') as Hcards.
  { unfold all_cards. by apply Permutation_flat_map. }
  assert (∀ c1 c2,
            c1 ∈ all_cards requests_get BeautifulSoup l' ->
            c2 ∈ all_cards requests_get BeautifulSoup l' ->
            card_title c1 = card_title c2 -> card_url c1 = card_url c2) as Hfix'.
  { intros c1 c2. rewrite <- !Hcards. apply Hfix. }
  assert (is_ok (identify_articles_to_scrape requests_get BeautifulSoup l w).1 = true)
    as Hok by by rewrite Hrun.
  apply discovery_is_ok in Hok as [Hall Hfirsts].
  assert (is_ok (identify_articles_to_scrape requests_get BeautifulSoup l' w').1 = true)
    as Hok'.
  { apply discovery_is_ok. split; [by rewrite <- Hcards|].
    intros i c [Hc _]. apply list_elem_of_lookup_2 in Hc. rewrite <- Hcards in Hc.
    destruct (first_seen_exists _ c Hc) as (j & c0 & Hfirst & Ht).
    rewrite <- (Hfix c0 c); [by eapply Hfirsts | | done..].
    destruct Hfirst as [Hc0 _]. by eapply list_elem_of_lookup_2. }
  destruct (identify_articles_to_scrape requests_get BeautifulSoup l' w')
    as [[articles'|e] w1'] eqn:Hrun'; [|done].
  exists w1'. f_equal. f_equal. apply set_eq. intros url.
  rewrite (discovery_urls _ _ _ _ Hrun'), (discovery_urls _ _ _ _ Hrun).
  rewrite (first_seen_urls _ _ Hfix), (first_seen_urls _ _ Hfix').
  by setoid_rewrite Hcards.
Qed.

End DiscoveryWhole.

(** X8.  In general the set article discovery returns is not fixed by
    the set of listing pages: there are a site and two orders of the same
    pages for which both runs return, with different sets, since the first
    card seen with a title decides which link is kept. *)
Theorem article_discovery_depends_on_order :
  ∃ (requests_get : string -> Response) (BeautifulSoup : string -> Soup.element)
    (l l' : list string) (w w1 w1' : world) (articles articles' : gset string),
    l ≡ₚ l' ∧
    identify_articles_to_scrape requests_get BeautifulSoup l w = (Ok articles, w1) ∧
    identify_articles_to_scrape requests_get BeautifulSoup l' w = (Ok articles', w1') ∧
    articles ≠ articles'.
Proof.
  exists Sample.requests_get, Sample.BeautifulSoup,
    [Sample.repository "?page=0"; Sample.repository "?page=1"],
    [Sample.repository "?page=1"; Sample.repository "?page=0"], Sample.w0,
    (World ["Identified 3 distinct articles to scrape."] ∅),
    (World ["Identified 3 distinct articles to scrape."] ∅),
    {[ repo_base_url ++ "/papers/alpha"; repo_base_url ++ "/papers/beta";
       repo_base_url ++ "/papers/gamma" ]},
    {[ repo_base_url ++ "/papers/alpha-2"; repo_base_url ++ "/papers/beta";
       repo_base_url ++ "/papers/gamma" ]}.
  split; [apply perm_swap|]. split; [vm_compute; reflexivity|].
  split; [vm_compute; reflexivity|]. intros Heq.
  apply (f_equal (fun s : gset string => bool_decide (repo_base_url ++ "/papers/alpha" ∈ s)))
    in Heq.
  vm_compute in Heq. discriminate Heq.
Qed.

Lemma article_discovery_order_free_sample :
  [Sample.repository "?page=0"; Sample.repository "?q=plain"]
  ≡ₚ [Sample.repository "?q=plain"; Sample.repository "?page=0"] ∧
  ∃ w1', identify_articles_to_scrape Sample.requests_get Sample.BeautifulSoup
           [Sample.repository "?q=plain"; Sample.repository "?page=0"] Sample.w0
         = (Ok {[ repo_base_url ++ "/papers/alpha"; repo_base_url ++ "/papers/beta" ]}, w1').
Proof.
  split; [apply perm_swap|].
  apply (article_discovery_order_free Sample.requests_get Sample.BeautifulSoup
           [Sample.repository "?page=0"; Sample.repository "?q=plain"]
           [Sample.repository "?q=plain"; Sample.repository "?page=0"]
           Sample.w0 (World ["Identified 2 distinct articles to scrape."] ∅) Sample.w0).
  - apply perm_swap.
  - intros c1 c2 H1 H2.
    change (all_cards Sample.requests_get Sample.BeautifulSoup
              [Sample.repository "?page=0"; Sample.repository "?q=plain"])
      with [Soup.Element
              [Soup.Head "ul" ["list-papers"] []; Soup.Head "[document]" [] []]
              (Soup.Head "li" ["col"] [])
              [Soup.Tag "div" ["card"] []
                 [Soup.Tag "a" [] [("href", "/papers/alpha"); ("hreflang", "en")]
                    [Soup.NavigableString "Alpha"]]];
            Soup.Element
              [Soup.Head "ul" ["list-papers"] []; Soup.Head "[document]" [] []]
              (Soup.Head "li" ["col"] [])
              [Soup.Tag "div" ["card"] []
                 [Soup.Tag "a" [] [("href", "/papers/beta"); ("hreflang", "en")]
                    [Soup.NavigableString "Beta"]]];
            Soup.Element
              [Soup.Head "ul" ["list-papers"] []; Soup.Head "[document]" [] []]
              (Soup.Head "li" ["col"] [])
              [Soup.Tag "div" ["card"] []
                 [Soup.Tag "a" [] [("href", "/papers/alpha"); ("hreflang", "en")]
                    [Soup.NavigableString "Alpha"]]]] in H1, H2.
    rewrite !elem_of_cons, elem_of_nil in H1, H2.
    destruct H1 as [->|[->|[->|[]]]], H2 as [->|[->|[->|[]]]];
      vm_compute; first [reflexivity | discriminate].
  - vm_compute. reflexivity.
Defined.

(** ** Article extraction: one record per served page *)

Section FieldLoop.

Lemma dict_set_keys_head (k v k0 : string) (ks : list string) (d : Dict.dict) :
  Dict.keys d = k0 :: ks -> ∃ ks', Dict.keys (Dict.set k v d) = k0 :: ks'.
Proof.
  destruct d as [|[k1 v1] d]; [done|]. simpl. intros [= -> _].
  destruct (String.eqb k0 k); simpl; by eexists.
Qed.

(** The loop over the fields of a page prints nothing, gives the same
    record in every world, and keeps the first key of the record. *)
Lemma fields_loop_ok (fields : list Soup.element) (record record' : Dict.dict)
      (w w' : world) (k0 : string) (ks : list string) :
  Dict.keys record = k0 :: ks ->
  Py.for_each extract_metadata_field fields record w = (Ok record', w') ->
  w' = w ∧
  (∃ ks', Dict.keys record' = k0 :: ks') ∧
  ∀ w0, Py.for_each extract_metadata_field fields record w0 = (Ok record', w0).
Proof.
  revert record ks w. induction fields as [|field fields IH]; intros record ks w Hkeys; simpl.
  - unfold Py.ret. intros [= <- <-]. split; [done|]. split; [by eexists | done].
  - unfold Py.bind.
    destruct (extract_metadata_field field record w) as [[record1|e] w1] eqn:Hfield; [|done].
    pose proof Hfield as Hfield'.
    apply extract_metadata_field_ok in Hfield' as (-> & name & value & ->).
    destruct (dict_set_keys_head name value k0 ks record Hkeys) as [ks1 Hkeys1].
    intros Hrest. destruct (IH _ _ _ Hkeys1 Hrest) as (-> & Hhead & Hany).
    split; [done|]. split; [done|]. intros w0.
    pose proof (logging_result _ w w0 (logging_extract_metadata_field field record)) as Hsame.
    rewrite Hfield in Hsame. simpl in Hsame.
    destruct (extract_metadata_field field record w0) as [r w2] eqn:Hfield0.
    simpl in Hsame. subst r.
    apply extract_metadata_field_ok in Hfield0 as Hw2. destruct Hw2 as [-> _].
    apply Hany.
Qed.

End FieldLoop.

Section Extraction.

Variable requests_get : string -> Response.
Variable BeautifulSoup : string -> Soup.element.

Lemma extract_step_served (u : string) (data data' : list Dict.dict) (w w' : world) :
  status_code (requests_get u) = 200%Z ->
  extract_step requests_get BeautifulSoup u data w = (Ok data', w') ->
  ∃ d, data' = (data ++ [d])%list ∧ w' = w ∧
       (∃ ks, Dict.keys d = "Title" :: ks) ∧ record_at requests_get BeautifulSoup u d.
Proof.
  intros Hstatus. unfold record_at, extract_step.
  rewrite Hstatus, bool_decide_eq_false_2 by (intros H; by apply H).
  destruct (Soup.select_one Soup.sel_h1 _) as [h1|]; [|done].
  destruct (Soup.select_one Soup.sel_node_content _) as [node|]; [|done].
  simpl. unfold Py.bind at 1 2 3.  simpl.
  destruct (Py.for_each extract_metadata_field _ _ w) as [[record|e] w1] eqn:Hloop; [|done].
  unfold Py.ret. intros [= <- <-].
  destruct (fields_loop_ok _ [("Title", Soup.get_text_strip h1)] _ _ _ "Title" []
              eq_refl Hloop) as (-> & Hhead & Hany).
  exists record. split; [done|]. split; [done|]. split; [done|].
  intros data0 w0. unfold Py.bind. simpl. by rewrite Hany.
Qed.

Lemma extract_loop_records (l : list string) (acc data : list Dict.dict) (w w' : world) :
  Py.for_each (extract_step requests_get BeautifulSoup) l acc w = (Ok data, w') ->
  ∃ new, data = (acc ++ new)%list ∧
         Forall2 (fun u d => (∃ ks, Dict.keys d = "Title" :: ks) ∧ record_at requests_get BeautifulSoup u d)
                 (served requests_get l) new.
Proof.
  revert acc w. induction l as [|u l IH]; intros acc w; simpl.
  - unfold Py.ret. intros [= <- <-]. exists []. by rewrite app_nil_r.
  - unfold Py.bind at 1.
    destruct (extract_step requests_get BeautifulSoup u acc w) as [[acc1|e] w1] eqn:Hstep;
      [|done].
    intros Hrest. apply IH in Hrest as (new & -> & Hnew).
    unfold served. rewrite filter_cons. case_decide as Hstatus.
    + apply (extract_step_served _ _ _ _ _ Hstatus) in Hstep as (d & -> & _ & Hhead & Hrec).
      exists (d :: new). split; [by rewrite <- app_assoc|]. by constructor.
    + unfold extract_step in Hstep.
      rewrite bool_decide_eq_true_2, print_then in Hstep by done.
      unfold Py.ret in Hstep. injection Hstep as <- _. by exists new.
Qed.

(** X9.  When article extraction returns, its list holds one record per
    served URL of the input, in the order of the input: the record the
    turn of that URL appends on its own.  Every record has "Title" as its
    first key. *)
Theorem extraction_gives_one_record_per_served_page
    (articles_to_scrape : list string) (w w' : world) (data : list Dict.dict) :
  extract_article_data requests_get BeautifulSoup articles_to_scrape w = (Ok data, w') ->
  length data = length (served requests_get articles_to_scrape) ∧
  Forall2 (fun u d => (∃ ks, Dict.keys d = "Title" :: ks) ∧ record_at requests_get BeautifulSoup u d)
          (served requests_get articles_to_scrape) data.
Proof.
  unfold extract_article_data. rewrite print_then. unfold Py.bind at 1.
  destruct (Py.for_each _ articles_to_scrape [] _) as [[data1|e] w1] eqn:Hloop; [|done].
  rewrite print_then. unfold Py.ret. intros [= <- _].
  apply extract_loop_records in Hloop as (new & -> & Hnew). simpl.
  split; [|done]. symmetry. by eapply Forall2_length.
Qed.

Lemma for_each_raises {A S} (body : A -> S -> IO S) (u : A) (l : list A) :
  (∀ s w, is_ok (body u s w).1 = false) ->
  u ∈ l ->
  ∀ s w, is_ok (Py.for_each body l s w).1 = false.
Proof.
  intros Hu. induction l as [|x l IH]; intros Hin s w; [by apply elem_of_nil in Hin|].
  simpl. unfold Py.bind. destruct (body x s w) as [[s1|e] w1] eqn:Hx; [|done].
  apply elem_of_cons in Hin as [->|Hin]; [|by apply IH].
  specialize (Hu s w). by rewrite Hx in Hu.
Qed.

(** X10.  One served article page without an [h1], or without a
    [div.node__content], makes article extraction raise, wherever the
    page stands in the input: no record is returned, not even those of
    the pages read before it. *)
Theorem extraction_aborts_on_malformed_page
    (articles_to_scrape : list string) (u : string) (w : world) :
  u ∈ articles_to_scrape ->
  status_code (requests_get u) = 200%Z ->
  Soup.select_one Soup.sel_h1 (BeautifulSoup (text (requests_get u))) = None
  ∨ Soup.select_one Soup.sel_node_content (BeautifulSoup (text (requests_get u))) = None ->
  is_ok (extract_article_data requests_get BeautifulSoup articles_to_scrape w).1 = false.
Proof.
  intros Hin Hstatus Hmissing.
  assert (∀ s w0, is_ok (extract_step requests_get BeautifulSoup u s w0).1 = false) as Hu.
  { intros s w0. unfold extract_step.
    rewrite Hstatus, bool_decide_eq_false_2 by (intros H; by apply H).
    destruct Hmissing as [-> | Hnode]; [done|].
    destruct (Soup.select_one Soup.sel_h1 _); [|done]. simpl. by rewrite Hnode. }
  unfold extract_article_data. rewrite print_then. unfold Py.bind at 1.
  pose proof (for_each_raises _ u articles_to_scrape Hu Hin []) as Hloop.
  match goal with
  | |- context [Py.for_each _ _ _ ?w1] => specialize (Hloop w1)
  end.
  destruct (Py.for_each _ articles_to_scrape [] _) as [[data|e] w2]; done.
Qed.

End Extraction.

Lemma extraction_gives_one_record_per_served_page_sample :
  extract_article_data Sample.requests_get Sample.BeautifulSoup
    [repo_base_url ++ "/papers/alpha"; repo_base_url ++ "/papers/beta"] Sample.w0
  = (Ok [[("Title", "Alpha"); ("Abstract", "Summary text"); ("Benefits", "AB")]],
     World ["Attempting to scrape data from 2 articles...";
            warning (repo_base_url ++ "/papers/beta") 404;
            "Successfully scraped data from 1 distinct articles."] ∅) ∧
  length [[("Title", "Alpha"); ("Abstract", "Summary text"); ("Benefits", "AB")]]
  = length (served Sample.requests_get
              [repo_base_url ++ "/papers/alpha"; repo_base_url ++ "/papers/beta"]).
Proof.
  assert (extract_article_data Sample.requests_get Sample.BeautifulSoup
            [repo_base_url ++ "/papers/alpha"; repo_base_url ++ "/papers/beta"] Sample.w0
          = (Ok [[("Title", "Alpha"); ("Abstract", "Summary text"); ("Benefits", "AB")]],
             World ["Attempting to scrape data from 2 articles...";
                    warning (repo_base_url ++ "/papers/beta") 404;
                    "Successfully scraped data from 1 distinct articles."] ∅)) as Hrun.
  { vm_compute. reflexivity. }
  split; [exact Hrun|].
  exact (proj1 (extraction_gives_one_record_per_served_page
                  Sample.requests_get Sample.BeautifulSoup _ _ _ _ Hrun)).
Defined.

Lemma extraction_aborts_on_malformed_page_sample :
  status_code (Broken.requests_get (repo_base_url ++ "/papers/noh1")) = 200%Z ∧
  Soup.select_one Soup.sel_h1
    (Broken.BeautifulSoup (text (Broken.requests_get (repo_base_url ++ "/papers/noh1"))))
  = None ∧
  is_ok (extract_article_data Broken.requests_get Broken.BeautifulSoup
           [repo_base_url ++ "/papers/gone"; repo_base_url ++ "/papers/noh1"]
           Sample.w0).1 = false.
Proof.
  split; [reflexivity|]. split; [reflexivity|].
  apply (extraction_aborts_on_malformed_page Broken.requests_get Broken.BeautifulSoup
           [repo_base_url ++ "/papers/gone"; repo_base_url ++ "/papers/noh1"]
           (repo_base_url ++ "/papers/noh1") Sample.w0).
  - right. left.
  - reflexivity.
  - left. reflexivity.
Defined.

(** ** The writer: when it raises and what it stores *)

Section WriterEdges.

Import Pandas.

Variable data_out : string.

(** X11.  Given records none of which has the key "Title" (no record at
    all, or records without it), the writer raises [KeyError: 'Title'];
    no file is written and nothing is printed. *)
Theorem writer_raises_without_title (data : list Dict.dict) (w : world) :
  (∀ d, d ∈ data -> "Title" ∉ Dict.keys d) ->
  write_data_to_csv data_out data w = (Raise (KeyError "Title"), w).
Proof.
  intros Hno. rewrite writer_run, index_of_None; [done|].
  intros (d & Hd & Hk)%union_keys_elem. by apply (Hno d).
Qed.

Lemma header_elem (cols : list string) (c : string) :
  c ∈ header cols
  ↔ (c = "What age?" ∧ "Who age?" ∈ cols) ∨ (c ≠ "Who age?" ∧ c ∈ cols).
Proof.
  unfold header. rewrite list_elem_of_fmap. split.
  - intros (c0 & -> & Hin). destruct (String.eqb_spec c0 "Who age?") as [->|Hne]; auto.
  - intros [[-> Hin]|[Hne Hin]].
    + exists "Who age?". by split.
    + exists c. split; [|done]. by destruct (String.eqb_spec c "Who age?").
Qed.

(** X12.  When the writer returns, the file at the output path holds a
    header and one line per record, every line as long as the header; the
    header has "Title" and never "Who age?"; no other file has changed and
    one line has been printed. *)
Theorem writer_stores_rectangular_table (data : list Dict.dict) (w w' : world) :
  write_data_to_csv data_out data w = (Ok tt, w') ->
  (∃ hd lines,
     files w' !! data_out = Some (hd :: lines) ∧
     length lines = length data ∧
     Forall (fun ln => length ln = length hd) lines ∧
     "Title" ∈ hd ∧ "Who age?" ∉ hd) ∧
  (∀ path, path ≠ data_out -> files w' !! path = files w !! path) ∧
  stdout w' = (stdout w ++ [("Wrote data to CSV at data " ++ data_out ++ ".")%string])%list.
Proof.
  rewrite writer_run. destruct (index_of "Title" (union_keys data)) as [i|] eqn:Hi; [|done].
  intros [= <-]. simpl. split; [|split; [|done]].
  - eexists _, _. split; [apply lookup_insert_eq|].
    split; [|split; [|split]].
    + rewrite length_map, merge_sort_Permutation. by rewrite length_map.
    + apply Forall_forall. intros ln (row & -> & Hrow)%list_elem_of_fmap.
      rewrite merge_sort_Permutation in Hrow.
      apply list_elem_of_fmap in Hrow as (d & -> & _).
      unfold header. by rewrite !length_map.
    + apply header_elem. right. split; [discriminate|].
      destruct (decide ("Title" ∈ union_keys data)) as [|Hno]; [done|].
      by rewrite (index_of_None _ _ Hno) in Hi.
    + intros [[Heq _]|[Hne _]]%header_elem; [discriminate Heq | done].
  - intros path Hpath. by rewrite lookup_insert_ne.
Qed.

(** X13.  When the writer returns, the header it stores is free of
    repeated names unless records carry both "Who age?" and "What age?":
    then the renaming leaves two columns named "What age?". *)
Theorem writer_header_repeats_iff (data : list Dict.dict) (w w' : world) :
  write_data_to_csv data_out data w = (Ok tt, w') ->
  ∃ hd lines,
    files w' !! data_out = Some (hd :: lines) ∧
    (NoDup hd
     ↔ ¬ ((∃ d, d ∈ data ∧ "Who age?" ∈ Dict.keys d) ∧
          (∃ d, d ∈ data ∧ "What age?" ∈ Dict.keys d))).
Proof.
  rewrite writer_run. destruct (index_of "Title" (union_keys data)) as [i|] eqn:Hi; [|done].
  intros [= <-]. simpl. eexists _, _. split; [apply lookup_insert_eq|].
  rewrite <- !union_keys_elem. pose proof (union_keys_NoDup data) as Hnd.
  unfold header. split.
  - intros Hhd [[i1 H1]%list_elem_of_lookup [i2 H2]%list_elem_of_lookup].
    pose proof (proj1 (NoDup_alt _) Hhd) as Halt. clear Hhd.
    assert (i1 = i2) as ->.
    { apply (Halt i1 i2 "What age?"); rewrite list_lookup_fmap; [by rewrite H1 | by rewrite H2]. }
    rewrite H1 in H2. discriminate H2.
  - intros Hboth. apply NoDup_fmap_2_strong; [|done].
    intros c1 c2 Hc1 Hc2.
    destruct (String.eqb_spec c1 "Who age?") as [->|Hn1],
             (String.eqb_spec c2 "Who age?") as [->|Hn2]; try done.
    + intros <-. by destruct Hboth.
    + intros ->. by destruct Hboth.
Qed.

End WriterEdges.

Lemma writer_raises_without_title_sample :
  (∀ d, d ∈ [[("Age", "9")]; []] -> "Title" ∉ Dict.keys d) ∧
  write_data_to_csv "out.csv" [[("Age", "9")]; []] Sample.w0
  = (Raise (KeyError "Title"), Sample.w0).
Proof.
  assert (∀ d : Dict.dict, d ∈ [[("Age", "9")]; []] -> "Title" ∉ Dict.keys d) as Hno.
  { intros d. rewrite !elem_of_cons, elem_of_nil. intros [->|[->|[]]]; simpl.
    - rewrite elem_of_cons, elem_of_nil. intros [H|[]]. discriminate H.
    - apply not_elem_of_nil. }
  split; [exact Hno|].
  exact (writer_raises_without_title "out.csv" _ Sample.w0 Hno).
Defined.

Lemma writer_stores_rectangular_table_sample :
  write_data_to_csv "out.csv" Sample.two_records Sample.w0
  = (Ok tt,
     World ["Wrote data to CSV at data out.csv."]
           (<["out.csv" := [["Title"; "What age?"; "Age"];
                            ["A"; EmptyString; "9"];
                            ["B"; "5-8"; EmptyString]]]> ∅)) ∧
  ∃ hd lines,
    files (World ["Wrote data to CSV at data out.csv."]
             (<["out.csv" := [["Title"; "What age?"; "Age"];
                              ["A"; EmptyString; "9"];
                              ["B"; "5-8"; EmptyString]]]> ∅)) !! "out.csv"
    = Some (hd :: lines) ∧
    length lines = length Sample.two_records ∧
    Forall (fun ln => length ln = length hd) lines ∧
    "Title" ∈ hd ∧ "Who age?" ∉ hd.
Proof.
  assert (write_data_to_csv "out.csv" Sample.two_records Sample.w0
          = (Ok tt,
             World ["Wrote data to CSV at data out.csv."]
                   (<["out.csv" := [["Title"; "What age?"; "Age"];
                                    ["A"; EmptyString; "9"];
                                    ["B"; "5-8"; EmptyString]]]> ∅))) as Hrun.
  { vm_compute. reflexivity. }
  split; [exact Hrun|].
  exact (proj1 (writer_stores_rectangular_table "out.csv" _ _ _ Hrun)).
Defined.

Lemma writer_header_repeats_iff_sample :
  write_data_to_csv "out.csv"
    [[("Title", "A"); ("Who age?", "5-8"); ("What age?", "9")]] Sample.w0
  = (Ok tt,
     World ["Wrote data to CSV at data out.csv."]
           (<["out.csv" := [["Title"; "What age?"; "What age?"];
                            ["A"; "5-8"; "9"]]]> ∅)) ∧
  ∃ hd lines,
    files (World ["Wrote data to CSV at data out.csv."]
             (<["out.csv" := [["Title"; "What age?"; "What age?"];
                              ["A"; "5-8"; "9"]]]> ∅)) !! "out.csv"
    = Some (hd :: lines) ∧
    (NoDup hd
     ↔ ¬ ((∃ d, d ∈ [[("Title", "A"); ("Who age?", "5-8"); ("What age?", "9")]] ∧
                "Who age?" ∈ Dict.keys d) ∧
          (∃ d, d ∈ [[("Title", "A"); ("Who age?", "5-8"); ("What age?", "9")]] ∧
                "What age?" ∈ Dict.keys d))).
Proof.
  assert (write_data_to_csv "out.csv"
            [[("Title", "A"); ("Who age?", "5-8"); ("What age?", "9")]] Sample.w0
          = (Ok tt,
             World ["Wrote data to CSV at data out.csv."]
                   (<["out.csv" := [["Title"; "What age?"; "What age?"];
                                    ["A"; "5-8"; "9"]]]> ∅))) as Hrun.
  { vm_compute. reflexivity. }
  split; [exact Hrun|].
  exact (writer_header_repeats_iff "out.csv" _ _ _ Hrun).
Defined.

(** ** The whole run *)

Section StagesPrint.

Variable requests_get : string -> Response.
Variable BeautifulSoup : string -> Soup.element.

Lemma logging_world {A} (m : IO A) (w : world) :
  logging m -> files (m w).2 = files w ∧ ∃ out, stdout (m w).2 = (stdout w ++ out)%list.
Proof. intros (r & out & Hm). rewrite (Hm w). simpl. split; [done | by exists out]. Qed.

Lemma logging_identify_pages (l : list string) :
  logging (identify_pages_to_scrape requests_get BeautifulSoup l).
Proof.
  unfold identify_pages_to_scrape. apply logging_for_each. apply logging_pages_step.
Qed.

Lemma logging_identify_articles (l : list string) :
  logging (identify_articles_to_scrape requests_get BeautifulSoup l).
Proof.
  unfold identify_articles_to_scrape. apply logging_bind.
  - apply logging_for_each. apply logging_articles_step.
  - intros st. logging.
Qed.

Lemma logging_extract_article_data (l : list string) :
  logging (extract_article_data requests_get BeautifulSoup l).
Proof.
  unfold extract_article_data. apply logging_bind; [apply logging_print|]. intros _.
  apply logging_bind.
  - apply logging_for_each. apply logging_extract_step.
  - intros data. logging.
Qed.

(** X14.  Page discovery, article discovery and article extraction never
    write a file: whatever they are given and however they end, the files
    are as before and the standard output has only grown. *)
Theorem stages_only_print (l : list string) (w : world) :
  (files (identify_pages_to_scrape requests_get BeautifulSoup l w).2 = files w ∧
   ∃ out, stdout (identify_pages_to_scrape requests_get BeautifulSoup l w).2
          = (stdout w ++ out)%list) ∧
  (files (identify_articles_to_scrape requests_get BeautifulSoup l w).2 = files w ∧
   ∃ out, stdout (identify_articles_to_scrape requests_get BeautifulSoup l w).2
          = (stdout w ++ out)%list) ∧
  (files (extract_article_data requests_get BeautifulSoup l w).2 = files w ∧
   ∃ out, stdout (extract_article_data requests_get BeautifulSoup l w).2
          = (stdout w ++ out)%list).
Proof.
  split; [|split]; apply logging_world.
  - apply logging_identify_pages.
  - apply logging_identify_articles.
  - apply logging_extract_article_data.
Qed.

End StagesPrint.

Section Main.

Import Pandas.

Variable requests_get : string -> Response.
Variable BeautifulSoup : string -> Soup.element.
Variable project_root : string.
Variable order_pages : gset string -> list string.
Variable order_articles : gset string -> list string.

(** The run up to the writer: the records, or the exception, and a
    world whose files are untouched. *)
Lemma main_before_writer (seeds : list string) (w : world) :
  ∃ r w3,
    files w3 = files w ∧
    main requests_get BeautifulSoup project_root order_pages order_articles seeds w
    = match r with
      | Ok data => write_data_to_csv (data_out project_root) data w3
      | Raise e => (Raise e, w3)
      end ∧
    ∀ data, r = Ok data -> Forall (fun d => ∃ ks, Dict.keys d = "Title" :: ks) data.
Proof.
  unfold main. unfold Py.bind at 1.
  destruct (logging_world _ w (logging_identify_pages requests_get BeautifulSoup seeds))
    as [Hf1 _].
  destruct (identify_pages_to_scrape requests_get BeautifulSoup seeds w)
    as [[pages|e] w1]; simpl in Hf1; [|by exists (Raise e), w1].
  unfold Py.bind at 1.
  destruct (logging_world _ w1
              (logging_identify_articles requests_get BeautifulSoup (order_pages pages)))
    as [Hf2 _].
  destruct (identify_articles_to_scrape requests_get BeautifulSoup (order_pages pages) w1)
    as [[articles|e] w2]; simpl in Hf2; [|exists (Raise e), w2; split; [congruence | done]].
  unfold Py.bind at 1.
  destruct (logging_world _ w2
              (logging_extract_article_data requests_get BeautifulSoup (order_articles articles)))
    as [Hf3 _].
  destruct (extract_article_data requests_get BeautifulSoup (order_articles articles) w2)
    as [[data|e] w3] eqn:Hext; simpl in Hf3;
    [|exists (Raise e), w3; split; [congruence | done]].
  exists (Ok data), w3. split; [congruence|]. split; [done|].
  intros data0 [= <-]. unfold extract_article_data in Hext. rewrite print_then in Hext.
  unfold Py.bind at 1 in Hext.
  destruct (Py.for_each _ (order_articles articles) [] _) as [[data1|e] w4] eqn:Hloop; [|done].
  rewrite print_then in Hext. unfold Py.ret in Hext. injection Hext as <- _.
  apply extract_loop_records in Hloop as (new & -> & Hnew). simpl.
  clear -Hnew. induction Hnew as [|u d us ds [Hd _] _ IH]; by constructor.
Qed.

(** X15.  Whatever the orders in which the two sets are iterated, a run
    changes no file other than the one at the output path, and a run that
    ends with an exception changes no file at all: there is no partial
    output. *)
Theorem main_writes_only_the_output (seeds : list string) (w : world) :
  (∀ path, path ≠ data_out project_root ->
           files (main requests_get BeautifulSoup project_root order_pages order_articles seeds w).2 !! path
           = files w !! path) ∧
  (is_ok (main requests_get BeautifulSoup project_root order_pages order_articles seeds w).1 = false ->
   files (main requests_get BeautifulSoup project_root order_pages order_articles seeds w).2 = files w).
Proof.
  destruct (main_before_writer seeds w) as (r & w3 & Hfiles & -> & _).
  destruct r as [data|e]; simpl; [|by rewrite Hfiles].
  rewrite writer_run. destruct (index_of "Title" (union_keys data)); simpl.
  - split; [|done]. intros path Hpath. by rewrite lookup_insert_ne, Hfiles.
  - by rewrite Hfiles.
Qed.

End Main.

Section MainOutcomes.

Import Pandas.

Variable requests_get : string -> Response.
Variable BeautifulSoup : string -> Soup.element.
Variable project_root : string.
Variable order_pages : gset string -> list string.
Variable order_articles : gset string -> list string.

Lemma pages_all_down (seeds : list string) (pages : gset string) (w : world) :
  (∀ u, u ∈ seeds -> status_code (requests_get u) ≠ 200%Z) ->
  Py.for_each (pages_step requests_get BeautifulSoup) seeds pages w
  = (Ok pages,
     World (stdout w ++ map (fun u => warning u (status_code (requests_get u))) seeds)
           (files w)).
Proof.
  revert w. induction seeds as [|u seeds IH]; intros w Hdown; simpl.
  - unfold Py.ret. by rewrite app_nil_r, world_eta.
  - unfold Py.bind. rewrite pages_step_failed by (apply Hdown; left).
    rewrite IH by (intros u' Hu'; apply Hdown; by right). simpl.
    by rewrite <- app_assoc.
Qed.

(** X16.  When none of the seeds is served with status 200, the run
    prints one warning per seed and the three counts of zero, and then
    ends in [KeyError: 'Title'] raised by the writer; no file is written.
    This holds whatever the orders in which the two sets are iterated. *)
Theorem main_with_no_served_seed (seeds : list string) (w : world) :
  enumerates order_pages -> enumerates order_articles ->
  (∀ u, u ∈ seeds -> status_code (requests_get u) ≠ 200%Z) ->
  main requests_get BeautifulSoup project_root order_pages order_articles seeds w
  = (Raise (KeyError "Title"),
     World (stdout w
            ++ map (fun u => warning u (status_code (requests_get u))) seeds
            ++ ["Identified 0 distinct articles to scrape.";
                "Attempting to scrape data from 0 articles...";
                "Successfully scraped data from 0 distinct articles."])
           (files w)).
Proof.
  intros Hpages Harts Hdown.
  assert (order_pages ∅ = []) as Hno_pages.
  { apply Permutation_nil. by rewrite (Hpages ∅), elements_empty. }
  assert (order_articles ∅ = []) as Hno_articles.
  { apply Permutation_nil. by rewrite (Harts ∅), elements_empty. }
  assert (∀ w1, identify_articles_to_scrape requests_get BeautifulSoup [] w1
                = (Ok ∅, World (stdout w1 ++ ["Identified 0 distinct articles to scrape."])
                               (files w1))) as Harticles by reflexivity.
  assert (∀ w2, extract_article_data requests_get BeautifulSoup [] w2
                = (Ok [],
                   World ((stdout w2 ++ ["Attempting to scrape data from 0 articles..."])
                          ++ ["Successfully scraped data from 0 distinct articles."])
                         (files w2))) as Hextract by reflexivity.
  unfold main, identify_pages_to_scrape. unfold Py.bind at 1.
  rewrite pages_all_down by done. rewrite Hno_pages.
  unfold Py.bind at 1. rewrite Harticles, Hno_articles.
  unfold Py.bind at 1. rewrite Hextract.
  rewrite writer_run. simpl. by rewrite <- !app_assoc.
Qed.

Lemma add_keys_head (ks : list string) (c : string) (cols : list string) :
  ∃ tl, fold_left add_key ks (c :: cols) = c :: tl.
Proof.
  revert cols. induction ks as [|k ks IH]; intros cols; simpl; [by eexists|].
  unfold add_key at 2. case_bool_decide; [apply IH|]. simpl. apply IH.
Qed.

Lemma union_keys_head (data : list Dict.dict) (c : string) (cols : list string) :
  ∃ tl, fold_left (fun cols d => fold_left add_key (Dict.keys d) cols) data (c :: cols)
        = c :: tl.
Proof.
  revert cols. induction data as [|d data IH]; intros cols; simpl; [by eexists|].
  destruct (add_keys_head (Dict.keys d) c cols) as [tl ->]. apply IH.
Qed.

Lemma union_keys_title_first (d : Dict.dict) (data : list Dict.dict) (ks : list string) :
  Dict.keys d = "Title" :: ks -> ∃ tl, union_keys (d :: data) = "Title" :: tl.
Proof.
  intros Hkeys. unfold union_keys. simpl. rewrite Hkeys. simpl.
  assert (add_key [] "Title" = ["Title"]) as ->.
  { unfold add_key. by rewrite bool_decide_eq_false_2 by apply not_elem_of_nil. }
  destruct (add_keys_head ks "Title" []) as [tl ->]. apply union_keys_head.
Qed.

Lemma title_first_get (d : Dict.dict) (ks : list string) :
  Dict.keys d = "Title" :: ks -> ∃ v, Dict.get "Title" d = Some v.
Proof.
  destruct d as [|[k v] d]; [done|]. simpl. intros [= -> _]. by exists v.
Qed.

Lemma StronglySorted_map_on {A B} (P : A -> Prop) (f : A -> B)
      (R1 : relation A) (R2 : relation B) (l : list A) :
  (∀ x y, P x -> P y -> R1 x y -> R2 (f x) (f y)) ->
  Forall P l -> StronglySorted R1 l -> StronglySorted R2 (map f l).
Proof.
  intros HR HP Hs. induction Hs as [|x l Hs IH Hx]; simpl; [constructor|].
  apply Forall_cons in HP as [Px Pl]. constructor; [by apply IH|].
  rewrite Forall_fmap. apply Forall_forall. intros y Hy.
  rewrite Forall_forall in Hx, Pl. apply HR; auto.
Qed.

(** X17.  Whatever the orders in which the two sets are iterated, when
    the whole run returns, the file at the output path holds a table whose
    first column is "Title", with at least one line, every line as long
    as the header, and the lines in ascending order of their first cell,
    the title. *)
Theorem main_stores_table_sorted_by_title (seeds : list string) (w w' : world) :
  main requests_get BeautifulSoup project_root order_pages order_articles seeds w = (Ok tt, w') ->
  ∃ hd lines,
    files w' !! data_out project_root = Some (("Title" :: hd) :: lines) ∧
    lines ≠ [] ∧
    Forall (fun ln => length ln = S (length hd)) lines ∧
    StronglySorted
      (fun ln1 ln2 => String.le (List.hd EmptyString ln1) (List.hd EmptyString ln2))
      lines.
Proof.
  destruct (main_before_writer requests_get BeautifulSoup project_root
              order_pages order_articles seeds w)
    as (r & w3 & _ & -> & Hrecords).
  destruct r as [data|e]; [|done]. specialize (Hrecords data eq_refl).
  rewrite writer_run.
  destruct (index_of "Title" (union_keys data)) as [i|] eqn:Hi; [|done].
  intros [= <-]. simpl.
  destruct data as [|d0 data]; [done|].
  pose proof Hrecords as Hall. apply Forall_cons in Hrecords as [[ks0 Hd0] _].
  destruct (union_keys_title_first d0 data ks0 Hd0) as [tl Hcols].
  rewrite Hcols in Hi |- *. injection Hi as <-.
  destruct (sort_rows_of_records "Title" ("Title" :: tl) 0 (d0 :: data) eq_refl)
    as (sorted & Hperm & Hsorted & ->).
  exists (header tl), (map (line ("Title" :: tl)) sorted).
  rewrite <- Hperm in Hall.
  split; [|split; [|split]].
  - rewrite lookup_insert_eq. f_equal. f_equal. rewrite map_map. apply map_ext.
    intros d. unfold line. by rewrite map_map.
  - destruct sorted; [|done]. by apply Permutation_nil_cons in Hperm.
  - apply Forall_forall. intros ln (d & -> & _)%list_elem_of_fmap.
    unfold line, header. by rewrite !length_map.
  - eapply (StronglySorted_map_on _ _ _ _ _ _ Hall Hsorted).
  Unshelve.
  intros d1 d2 [ks1 H1] [ks2 H2] Hle. simpl.
  destruct (title_first_get d1 ks1 H1) as [v1 Hv1].
  destruct (title_first_get d2 ks2 H2) as [v2 Hv2].
  unfold line. simpl. by rewrite Hv1, Hv2 in Hle |- *.
Qed.

End MainOutcomes.

Lemma main_with_no_served_seed_sample :
  (∀ u, u ∈ [Sample.repository "?q=down"; Sample.repository "?q=gone"] ->
        status_code (Sample.requests_get u) ≠ 200%Z) ∧
  main Sample.requests_get Sample.BeautifulSoup "/home/u" elements elements
    [Sample.repository "?q=down"; Sample.repository "?q=gone"] Sample.w0
  = (Raise (KeyError "Title"),
     World [warning (Sample.repository "?q=down") 503;
            warning (Sample.repository "?q=gone") 404;
            "Identified 0 distinct articles to scrape.";
            "Attempting to scrape data from 0 articles...";
            "Successfully scraped data from 0 distinct articles."] ∅).
Proof.
  assert (∀ u, u ∈ [Sample.repository "?q=down"; Sample.repository "?q=gone"] ->
               status_code (Sample.requests_get u) ≠ 200%Z) as Hdown.
  { intros u. rewrite !elem_of_cons, elem_of_nil.
    intros [->|[->|[]]]; vm_compute; discriminate. }
  split; [exact Hdown|].
  exact (main_with_no_served_seed Sample.requests_get Sample.BeautifulSoup "/home/u"
           elements elements _ Sample.w0 (fun s => reflexivity _) (fun s => reflexivity _)
           Hdown).
Defined.

(** The seed "?q=paged", its two listing pages visited first page
    first: the one served article is written. *)
Lemma main_stores_table_sorted_by_title_sample :
  main Sample.requests_get Sample.BeautifulSoup "/home/u"
    (fun s => reverse (elements s)) elements [Sample.repository "?q=paged"] Sample.w0
  = (Ok tt,
     World ["Identified 3 distinct articles to scrape.";
            "Attempting to scrape data from 3 articles...";
            warning (repo_base_url ++ "/papers/gamma") 404;
            warning (repo_base_url ++ "/papers/beta") 404;
            "Successfully scraped data from 1 distinct articles.";
            "Wrote data to CSV at data /home/u/data/clean/gse_genai_articles.csv."]
           (<["/home/u/data/clean/gse_genai_articles.csv" :=
                [["Title"; "Abstract"; "Benefits"];
                 ["Alpha"; "Summary text"; "AB"]]]> ∅)) ∧
  ∃ hd lines,
    files (World ["Identified 3 distinct articles to scrape.";
                  "Attempting to scrape data from 3 articles...";
                  warning (repo_base_url ++ "/papers/gamma") 404;
                  warning (repo_base_url ++ "/papers/beta") 404;
                  "Successfully scraped data from 1 distinct articles.";
                  "Wrote data to CSV at data /home/u/data/clean/gse_genai_articles.csv."]
             (<["/home/u/data/clean/gse_genai_articles.csv" :=
                  [["Title"; "Abstract"; "Benefits"];
                   ["Alpha"; "Summary text"; "AB"]]]> ∅))
      !! data_out "/home/u"
    = Some (("Title" :: hd) :: lines) ∧
    lines ≠ [] ∧
    Forall (fun ln => length ln = S (length hd)) lines ∧
    StronglySorted
      (fun ln1 ln2 => String.le (List.hd EmptyString ln1) (List.hd EmptyString ln2))
      lines.
Proof.
  assert (main Sample.requests_get Sample.BeautifulSoup "/home/u"
            (fun s => reverse (elements s)) elements
            [Sample.repository "?q=paged"] Sample.w0
          = (Ok tt,
             World ["Identified 3 distinct articles to scrape.";
                    "Attempting to scrape data from 3 articles...";
                    warning (repo_base_url ++ "/papers/gamma") 404;
                    warning (repo_base_url ++ "/papers/beta") 404;
                    "Successfully scraped data from 1 distinct articles.";
                    "Wrote data to CSV at data /home/u/data/clean/gse_genai_articles.csv."]
                   (<["/home/u/data/clean/gse_genai_articles.csv" :=
                        [["Title"; "Abstract"; "Benefits"];
                         ["Alpha"; "Summary text"; "AB"]]]> ∅))) as Hrun.
  { vm_compute. reflexivity. }
  split; [exact Hrun|].
  exact (main_stores_table_sorted_by_title Sample.requests_get Sample.BeautifulSoup
           "/home/u" (fun s => reverse (elements s)) elements _ _ _ Hrun).
Defined.

(** The same seed with the listing pages visited second page first: the
    articles kept are not served, the writer raises, no file is written. *)
Lemma main_writes_only_the_output_sample :
  is_ok (main Sample.requests_get Sample.BeautifulSoup "/home/u" elements elements
           [Sample.repository "?q=paged"] Sample.w0).1 = false ∧
  files (main Sample.requests_get Sample.BeautifulSoup "/home/u" elements elements
           [Sample.repository "?q=paged"] Sample.w0).2 = files Sample.w0.
Proof.
  assert (is_ok (main Sample.requests_get Sample.BeautifulSoup "/home/u" elements elements
                   [Sample.repository "?q=paged"] Sample.w0).1 = false) as Hfail.
  { vm_compute. reflexivity. }
  split; [exact Hfail|].
  exact (proj2 (main_writes_only_the_output Sample.requests_get Sample.BeautifulSoup
                  "/home/u" elements elements [Sample.repository "?q=paged"] Sample.w0)
           Hfail).
Defined.

Lemma article_discovery_returns_only_if_sample :
  identify_articles_to_scrape Sample.requests_get Sample.BeautifulSoup
    [Sample.repository "?page=0"; Sample.repository "?page=1"] Sample.w0
  = (Ok {[ repo_base_url ++ "/papers/alpha";
           repo_base_url ++ "/papers/beta";
           repo_base_url ++ "/papers/gamma" ]},
     World ["Identified 3 distinct articles to scrape."] ∅) ∧
  Forall (fun c => is_Some (card_title c))
         (all_cards Sample.requests_get Sample.BeautifulSoup
            [Sample.repository "?page=0"; Sample.repository "?page=1"]).
Proof.
  assert (identify_articles_to_scrape Sample.requests_get Sample.BeautifulSoup
            [Sample.repository "?page=0"; Sample.repository "?page=1"] Sample.w0
          = (Ok {[ repo_base_url ++ "/papers/alpha";
                   repo_base_url ++ "/papers/beta";
                   repo_base_url ++ "/papers/gamma" ]},
             World ["Identified 3 distinct articles to scrape."] ∅)) as Hrun.
  { vm_compute. reflexivity. }
  split; [exact Hrun|].
  exact (proj1 (article_discovery_returns_only_if Sample.requests_get Sample.BeautifulSoup
                  _ _ _ _ Hrun)).
Defined.
